(** * Digital Garden Blog: HTTP server, demo API and page controller

    A shallow embedding of the basic HTTP server of [public/js/api.js],
    of [public/js/demo-mode.js] (the demo API, the deployment detection
    and the page controller) and of [public/js/config.js], with the
    properties the specification states about them.

    JavaScript values are an inductive type, [localStorage] is a finite
    map from strings to strings, and every timer callback or request
    handler is a function from the state it reads to the state it leaves.
    The platform's [JSON.parse] and [JSON.stringify] are the two fields
    of a class, so every statement holds for whatever the platform does;
    [JSON.parse] and [JSON.stringify] below give one instance that
    computes. *)

From Stdlib Require Import ZArith NArith Ascii String List Bool Lia.
From Stdlib Require Import DecimalString DecimalPos DecimalN.
From stdpp Require Import base option list gmap strings.

Local Open Scope Z_scope.

(** ** JavaScript values *)

(** A string is a sequence of code units, one [ascii] each; numbers are
    the integers, which is all this program computes with ([id]s and
    clock readings in milliseconds); an object is the list of its own
    properties in enumeration order. *)
#[warnings="-register-all"]
Inductive JSValue : Type :=
  | JUndefined
  | JNull
  | JBool (b : bool)
  | JNum (n : Z)
  | JStr (s : string)
  | JArr (elems : list JSValue)
  | JObj (props : list (string * JSValue)).

Definition dquote : ascii := "034"%char.
Definition backslash : ascii := "092"%char.
Definition newline : string := String "010"%char EmptyString.

(** [a === b].  Primitives compare by value.  An array or an object is
    equal only to itself; the two sides of every [===] of this program
    are either a literal or values that were built apart (one parsed
    from storage, the other an argument), so they are never the same
    reference. *)
Definition strict_eq (a b : JSValue) : bool :=
  match a, b with
  | JUndefined, JUndefined => true
  | JNull, JNull => true
  | JBool x, JBool y => Bool.eqb x y
  | JNum x, JNum y => Z.eqb x y
  | JStr x, JStr y => String.eqb x y
  | _, _ => false
  end.

(** Truthiness, as [||] and [if] test it. *)
Definition truthy (v : JSValue) : bool :=
  match v with
  | JUndefined | JNull => false
  | JBool b => b
  | JNum n => negb (Z.eqb n 0)
  | JStr s => negb (String.eqb s EmptyString)
  | JArr _ | JObj _ => true
  end.

Fixpoint assoc (k : string) (props : list (string * JSValue)) : option JSValue :=
  match props with
  | [] => None
  | (k', v) :: rest => if String.eqb k k' then Some v else assoc k rest
  end.

(** [v.k] for the property names this program reads ([username],
    [password], [id], [success]): none is inherited from a prototype or
    is an index.  Reading a property of [null] or [undefined] throws a
    TypeError, here [None]. *)
Definition get_prop (v : JSValue) (k : string) : option JSValue :=
  match v with
  | JUndefined | JNull => None
  | JObj props => Some (default JUndefined (assoc k props))
  | _ => Some JUndefined
  end.

(** Number to string conversion of an integer, in decimal. *)
Definition N_toString (n : N) : string :=
  NilEmpty.string_of_uint (N.to_uint n).

Definition Number_toString (z : Z) : string :=
  if z <? 0 then String "-"%char (N_toString (Z.to_N (- z)))
  else N_toString (Z.to_N z).

(** [s.includes(t)] *)
Fixpoint includes (s t : string) : bool :=
  String.prefix t s ||
  match s with
  | EmptyString => false
  | String _ s' => includes s' t
  end.

(** ** A computable instance of the platform's JSON

    The text grammar of ECMA-404 over the values above: numbers are the
    integer lexemes (a fraction or an exponent has no value in [JNum]
    and is refused), string escapes denote code units below 256. *)
Module JSON.

Definition is_ws (c : ascii) : bool :=
  match c with
  | " "%char | "009"%char | "010"%char | "013"%char => true
  | _ => false
  end.

Fixpoint skip_ws (s : string) : string :=
  match s with
  | String c r => if is_ws c then skip_ws r else s
  | EmptyString => s
  end.

Definition is_digit (c : ascii) : bool :=
  (48 <=? nat_of_ascii c)%nat && (nat_of_ascii c <=? 57)%nat.

Definition hex_digit (n : N) : ascii :=
  if (n <? 10)%N then ascii_of_N (48 + n) else ascii_of_N (87 + n).

Definition hex_val (c : ascii) : option N :=
  let n := N_of_ascii c in
  if ((48 <=? n) && (n <=? 57))%N then Some (n - 48)%N
  else if ((97 <=? n) && (n <=? 102))%N then Some (n - 87)%N
  else if ((65 <=? n) && (n <=? 70))%N then Some (n - 55)%N
  else None.

(** *** Serialisation *)

Definition escape_char (c : ascii) : string :=
  if Ascii.eqb c dquote then String backslash (String dquote EmptyString)
  else if Ascii.eqb c backslash then String backslash (String backslash EmptyString)
  else if Ascii.eqb c "008"%char then String backslash "b"
  else if Ascii.eqb c "012"%char then String backslash "f"
  else if Ascii.eqb c "010"%char then String backslash "n"
  else if Ascii.eqb c "013"%char then String backslash "r"
  else if Ascii.eqb c "009"%char then String backslash "t"
  else if (N_of_ascii c <? 32)%N then
    String backslash
      (String "u" (String "0" (String "0"
        (String (hex_digit (N_of_ascii c / 16))
          (String (hex_digit (N_of_ascii c mod 16)) EmptyString)))))
  else String c EmptyString.

Fixpoint escape (s : string) : string :=
  match s with
  | EmptyString => EmptyString
  | String c r => escape_char c +:+ escape r
  end.

Definition quote (s : string) : string :=
  String dquote (escape s +:+ String dquote EmptyString).

(** [undefined] serialises as [null] inside an array and drops the
    property inside an object. *)
Fixpoint stringify (v : JSValue) : string :=
  match v with
  | JUndefined => "null"
  | JNull => "null"
  | JBool true => "true"
  | JBool false => "false"
  | JNum n => Number_toString n
  | JStr s => quote s
  | JArr elems =>
      "[" +:+ String.concat "," (map stringify elems) +:+ "]"
  | JObj props =>
      "{" +:+ String.concat ","
        ((fix members (ps : list (string * JSValue)) : list string :=
            match ps with
            | [] => []
            | (k, JUndefined) :: ps' => members ps'
            | (k, x) :: ps' => (quote k +:+ ":" +:+ stringify x) :: members ps'
            end) props) +:+ "}"
  end.

(** *** Parsing *)

Definition unescape (e : ascii) : option ascii :=
  if Ascii.eqb e dquote then Some dquote
  else if Ascii.eqb e backslash then Some backslash
  else if Ascii.eqb e "/"%char then Some "/"%char
  else if Ascii.eqb e "b"%char then Some "008"%char
  else if Ascii.eqb e "f"%char then Some "012"%char
  else if Ascii.eqb e "n"%char then Some "010"%char
  else if Ascii.eqb e "r"%char then Some "013"%char
  else if Ascii.eqb e "t"%char then Some "009"%char
  else None.

Definition hex4 (a b c d : ascii) : option N :=
  match hex_val a, hex_val b, hex_val c, hex_val d with
  | Some x, Some y, Some z, Some w => Some (((x * 16 + y) * 16 + z) * 16 + w)%N
  | _, _, _, _ => None
  end.

Definition cons_char (c : ascii) (r : option (string * string)) : option (string * string) :=
  match r with
  | Some (s, rest) => Some (String c s, rest)
  | None => None
  end.

(** The characters of a string literal after its opening quote, up to
    and including the closing quote. *)
Fixpoint parse_chars (s : string) : option (string * string) :=
  match s with
  | EmptyString => None
  | String c r =>
      if Ascii.eqb c dquote then Some (EmptyString, r)
      else if Ascii.eqb c backslash then
        match r with
        | String e r' =>
            if Ascii.eqb e "u"%char then
              match r' with
              | String h1 (String h2 (String h3 (String h4 r''))) =>
                  match hex4 h1 h2 h3 h4 with
                  | Some n =>
                      if (n <? 256)%N then cons_char (ascii_of_N n) (parse_chars r'')
                      else None
                  | None => None
                  end
              | _ => None
              end
            else
              match unescape e with
              | Some ch => cons_char ch (parse_chars r')
              | None => None
              end
        | EmptyString => None
        end
      else if (N_of_ascii c <? 32)%N then None
      else cons_char c (parse_chars r)
  end.

Fixpoint lex_digits (s : string) : string * string :=
  match s with
  | String c r =>
      if is_digit c then let '(d, r') := lex_digits r in (String c d, r')
      else (EmptyString, s)
  | EmptyString => (EmptyString, EmptyString)
  end.

Definition starts_fraction (s : string) : bool :=
  match s with
  | String c _ => Ascii.eqb c "."%char || Ascii.eqb c "e"%char || Ascii.eqb c "E"%char
  | EmptyString => false
  end.

(** [0] or a digit sequence without a leading zero. *)
Definition parse_nat (s : string) : option (N * string) :=
  let '(ds, r) := lex_digits s in
  match NilEmpty.uint_of_string ds with
  | Some d =>
      if Decimal.uint_eq_dec (Decimal.unorm d) d then
        if starts_fraction r then None else Some (N.of_uint d, r)
      else None
  | None => None
  end.

Fixpoint strip_prefix (lit s : string) : option string :=
  match lit with
  | EmptyString => Some s
  | String a lit' =>
      match s with
      | String b s' => if Ascii.eqb a b then strip_prefix lit' s' else None
      | EmptyString => None
      end
  end.

Definition expect (lit : string) (s : string) (v : JSValue) : option (JSValue * string) :=
  match strip_prefix lit s with
  | Some r => Some (v, r)
  | None => None
  end.

(** A property that occurs twice keeps its first position and its last
    value. *)
Fixpoint obj_put (k : string) (v : JSValue) (props : list (string * JSValue)) :=
  match props with
  | [] => [(k, v)]
  | (k', v') :: rest =>
      if String.eqb k k' then (k', v) :: rest else (k', v') :: obj_put k v rest
  end.

Definition obj_of_members (ms : list (string * JSValue)) : list (string * JSValue) :=
  fold_left (fun acc kv => obj_put (fst kv) (snd kv) acc) ms [].

Fixpoint parse_value (fuel : nat) (s : string) : option (JSValue * string) :=
  match fuel with
  | O => None
  | S fuel =>
      match s with
      | EmptyString => None
      | String c r =>
          if Ascii.eqb c "n"%char then expect "ull" r JNull
          else if Ascii.eqb c "t"%char then expect "rue" r (JBool true)
          else if Ascii.eqb c "f"%char then expect "alse" r (JBool false)
          else if Ascii.eqb c dquote then
            match parse_chars r with
            | Some (str, r') => Some (JStr str, r')
            | None => None
            end
          else if Ascii.eqb c "["%char then
            match skip_ws r with
            | String c1 r' =>
                if Ascii.eqb c1 "]"%char then Some (JArr [], r')
                else
                  match parse_elems fuel (String c1 r') with
                  | Some (vs, r'') => Some (JArr vs, r'')
                  | None => None
                  end
            | EmptyString => None
            end
          else if Ascii.eqb c "{"%char then
            match skip_ws r with
            | String c1 r' =>
                if Ascii.eqb c1 "}"%char then Some (JObj [], r')
                else
                  match parse_members fuel (String c1 r') with
                  | Some (ms, r'') => Some (JObj (obj_of_members ms), r'')
                  | None => None
                  end
            | EmptyString => None
            end
          else if Ascii.eqb c "-"%char then
            match parse_nat r with
            | Some (n, r') => Some (JNum (- Z.of_N n), r')
            | None => None
            end
          else
            match parse_nat s with
            | Some (n, r') => Some (JNum (Z.of_N n), r')
            | None => None
            end
      end
  end
with parse_elems (fuel : nat) (s : string) : option (list JSValue * string) :=
  match fuel with
  | O => None
  | S fuel =>
      match parse_value fuel s with
      | Some (v, r) =>
          match skip_ws r with
          | String c r' =>
              if Ascii.eqb c ","%char then
                match parse_elems fuel (skip_ws r') with
                | Some (vs, r'') => Some (v :: vs, r'')
                | None => None
                end
              else if Ascii.eqb c "]"%char then Some ([v], r')
              else None
          | EmptyString => None
          end
      | None => None
      end
  end
with parse_members (fuel : nat) (s : string) : option (list (string * JSValue) * string) :=
  match fuel with
  | O => None
  | S fuel =>
      match s with
      | String q r =>
          if Ascii.eqb q dquote then
            match parse_chars r with
            | Some (k, r1) =>
                match skip_ws r1 with
                | String c1 r2 =>
                    if Ascii.eqb c1 ":"%char then
                      match parse_value fuel (skip_ws r2) with
                      | Some (v, r3) =>
                          match skip_ws r3 with
                          | String c r4 =>
                              if Ascii.eqb c ","%char then
                                match parse_members fuel (skip_ws r4) with
                                | Some (ms, r5) => Some ((k, v) :: ms, r5)
                                | None => None
                                end
                              else if Ascii.eqb c "}"%char then Some ([(k, v)], r4)
                              else None
                          | EmptyString => None
                          end
                      | None => None
                      end
                    else None
                | EmptyString => None
                end
            | None => None
            end
          else None
      | EmptyString => None
      end
  end.

(** A character a serialised value can start with, and what can follow
    a serialised value. *)
Definition value_start (c : ascii) : bool :=
  is_digit c || Ascii.eqb c "-"%char || Ascii.eqb c dquote || Ascii.eqb c "["%char
  || Ascii.eqb c "{"%char || Ascii.eqb c "n"%char || Ascii.eqb c "t"%char
  || Ascii.eqb c "f"%char.

Definition ends_value (rest : string) : bool :=
  match rest with
  | EmptyString => true
  | String c _ => Ascii.eqb c ","%char || Ascii.eqb c "]"%char || Ascii.eqb c "}"%char
  end.

Fixpoint all_digits (s : string) : bool :=
  match s with
  | EmptyString => true
  | String c r => is_digit c && all_digits r
  end.

(** The texts of the properties of an object, as [stringify] writes
    them. *)
Fixpoint members_text (ps : list (string * JSValue)) : list string :=
  match ps with
  | [] => []
  | (k, JUndefined) :: ps' => members_text ps'
  | (k, x) :: ps' => (quote k +:+ ":" +:+ stringify x) :: members_text ps'
  end.

(** [None] is the SyntaxError. *)
Definition parse (s : string) : option JSValue :=
  match parse_value (String.length s) (skip_ws s) with
  | Some (v, r) =>
      match skip_ws r with
      | EmptyString => Some v
      | _ => None
      end
  | None => None
  end.

End JSON.

(** ** The platform's clock

    A time value is the number of milliseconds since the epoch, as
    [Date.now()] returns it.  [toISOString] is the proleptic Gregorian
    calendar of ECMA-262 (21.4.1), for the time values a clock produces
    (within 8.64e15 ms of the epoch). *)
Module Date.

Definition msPerDay : Z := 86400000.

Definition Day (t : Z) : Z := t / msPerDay.
Definition TimeWithinDay (t : Z) : Z := t mod msPerDay.

(** Year, month and day of the month of a day number. *)
Definition civil (days : Z) : Z * Z * Z :=
  let z := days + 719468 in
  let era := z / 146097 in
  let doe := z - era * 146097 in
  let yoe := (doe - doe / 1460 + doe / 36524 - doe / 146096) / 365 in
  let doy := doe - (365 * yoe + yoe / 4 - yoe / 100) in
  let mp := (5 * doy + 2) / 153 in
  let d := doy - (153 * mp + 2) / 5 + 1 in
  let m := if mp <? 10 then mp + 3 else mp - 9 in
  let y := yoe + era * 400 + (if m <=? 2 then 1 else 0) in
  (y, m, d).

Fixpoint zeros (n : nat) : string :=
  match n with
  | O => EmptyString
  | S n' => String "0"%char (zeros n')
  end.

(** A non-negative integer in decimal, padded with zeros to [w] digits. *)
Definition pad (w : nat) (n : Z) : string :=
  let s := N_toString (Z.to_N n) in
  zeros (w - String.length s) +:+ s.

Definition year_string (y : Z) : string :=
  if (0 <=? y) && (y <=? 9999) then pad 4 y
  else if y <? 0 then String "-"%char (pad 6 (- y))
  else String "+"%char (pad 6 y).

Definition toISOString (t : Z) : string :=
  let '(y, m, d) := civil (Day t) in
  let ms := TimeWithinDay t in
  year_string y +:+ "-" +:+ pad 2 m +:+ "-" +:+ pad 2 d +:+ "T" +:+
  pad 2 (ms / 3600000) +:+ ":" +:+ pad 2 (ms / 60000 mod 60) +:+ ":" +:+
  pad 2 (ms / 1000 mod 60) +:+ "." +:+ pad 3 (ms mod 1000) +:+ "Z".

End Date.

(** [s.split('T')[0]]: the part of [s] before its first ['T']. *)
Fixpoint split_T_0 (s : string) : string :=
  match s with
  | EmptyString => EmptyString
  | String c r => if Ascii.eqb c "T"%char then EmptyString else String c (split_T_0 r)
  end.

(** ** The platform's JSON and storage *)

(** [JSON.parse] ([None] when it throws a SyntaxError) and
    [JSON.stringify], as the engine that runs the scripts provides
    them. *)
Class JSONPlatform := {
  JSON_parse : string -> option JSValue;
  JSON_stringify : JSValue -> string
}.

(** [localStorage]: [getItem] of a missing key is [null]. *)
Abbreviation Storage := (gmap string string).

Definition getItem (k : string) (ls : Storage) : JSValue :=
  match ls !! k with
  | Some s => JStr s
  | None => JNull
  end.

Definition setItem (k v : string) (ls : Storage) : Storage := <[k := v]> ls.
Definition removeItem (k : string) (ls : Storage) : Storage := delete k ls.

(** The text [JSON.parse] reads from a stored item: it converts its
    argument to a string, and [null] converts to the text [null]. *)
Definition item_text (v : JSValue) : string :=
  match v with
  | JStr s => s
  | _ => "null"
  end.

(** ** Values that survive serialisation *)

(** No [undefined] anywhere and no property twice in an object: the
    values [JSON.parse] returns, and those [JSON.stringify] writes
    without loss. *)
Fixpoint JSON_safe (v : JSValue) : Prop :=
  match v with
  | JUndefined => False
  | JArr elems =>
      (fix all (l : list JSValue) : Prop :=
         match l with
         | [] => True
         | x :: l' => JSON_safe x /\ all l'
         end) elems
  | JObj props =>
      NoDup (map fst props) /\
      (fix all (l : list (string * JSValue)) : Prop :=
         match l with
         | [] => True
         | (_, x) :: l' => JSON_safe x /\ all l'
         end) props
  | _ => True
  end.

(** The platform reads back what it wrote. *)
Definition JSON_roundtrip `{JSONPlatform} : Prop :=
  forall v, JSON_safe v -> JSON_parse (JSON_stringify v) = Some v.

(** Fuel that [JSON.parse_value] needs on the text of a value. *)
Fixpoint size (v : JSValue) : nat :=
  match v with
  | JArr elems =>
      S ((fix sum (l : list JSValue) : nat :=
            match l with
            | [] => O
            | x :: l' => S (size x + sum l')
            end) elems)
  | JObj props =>
      S ((fix sum (l : list (string * JSValue)) : nat :=
            match l with
            | [] => O
            | (_, x) :: l' => S (size x + sum l')
            end) props)
  | _ => 1%nat
  end.

(** What the parser reads back from the text of one value, followed by
    something that can follow a value. *)
Definition reads_back (v : JSValue) : Prop :=
  JSON_safe v ->
  forall (rest : string) (fuel : nat),
    JSON.ends_value rest = true -> (size v <= fuel)%nat ->
    JSON.parse_value fuel (JSON.stringify v +:+ rest) = Some (v, rest).

(** ** api.js: the basic HTTP server *)
Module Server.

Record Request := {
  req_method : string;
  req_url : string;
  req_body : string
}.

Record Response := {
  res_status : Z;
  res_headers : list (string * string);
  res_body : string
}.

Definition cors_headers : list (string * string) :=
  [("Access-Control-Allow-Origin", "*");
   ("Access-Control-Allow-Methods", "GET, POST, OPTIONS");
   ("Access-Control-Allow-Headers", "Content-Type, Authorization")].

Definition login_success : JSValue :=
  JObj [("success", JBool true);
        ("message", JStr "Login successful!");
        ("token", JStr "fake-jwt-token-12345");
        ("user", JObj [("id", JStr "1");
                       ("username", JStr "admin");
                       ("email", JStr "admin@blog.com");
                       ("role", JStr "admin")])].

Definition login_failure : JSValue :=
  JObj [("success", JBool false); ("message", JStr "Invalid credentials")].

Definition invalid_json : JSValue :=
  JObj [("success", JBool false); ("message", JStr "Invalid JSON")].

(** The two records of the post list; [now] is the clock reading of the
    invocation. *)
Definition posts_payload (now : Z) : JSValue :=
  JObj [("success", JBool true);
        ("posts", JArr [
           JObj [("id", JNum 1);
                 ("title", JStr "Welcome to Digital Garden");
                 ("content", JStr "This is your first post! Start writing amazing content.");
                 ("excerpt", JStr "Welcome to your new digital garden where ideas bloom.");
                 ("author", JStr "Admin");
                 ("date", JStr (Date.toISOString now));
                 ("tags", JArr [JStr "welcome"; JStr "first-post"]);
                 ("published", JBool true)];
           JObj [("id", JNum 2);
                 ("title", JStr "Getting Started with Blogging");
                 ("content", JStr "Here are some tips to get started with your blog...");
                 ("excerpt", JStr "Essential tips for new bloggers to create engaging content.");
                 ("author", JStr "Admin");
                 ("date", JStr (Date.toISOString (now - 86400000)));
                 ("tags", JArr [JStr "blogging"; JStr "tips"]);
                 ("published", JBool true)]])].

Definition descriptor : JSValue :=
  JObj [("message", JStr "Digital Garden Blog API Server");
        ("version", JStr "1.0.0");
        ("endpoints", JObj [("POST /api/auth/login", JStr "User authentication");
                            ("GET /api/posts", JStr "Fetch blog posts")]);
        ("status", JStr "running")].

(** [data.username === 'admin' && data.password === 'admin123'], with
    [None] when a property read throws. *)
Definition credentials_match (data : JSValue) : option bool :=
  match get_prop data "username" with
  | None => None
  | Some u =>
      if strict_eq u (JStr "admin") then
        match get_prop data "password" with
        | None => None
        | Some p => Some (strict_eq p (JStr "admin123"))
        end
      else Some false
  end.

Section Handler.
Context `{JSONPlatform}.

(** [res.writeHead(status, {'Content-Type': 'application/json'})] and
    [res.end(JSON.stringify(v))]. *)
Definition json_response (status : Z) (v : JSValue) : Response :=
  {| res_status := status;
     res_headers := cors_headers ++ [("Content-Type", "application/json")];
     res_body := JSON_stringify v |}.

(** The body of the [try] of the login branch; [None] is the [catch]. *)
Definition try_login (body : string) : option Response :=
  match JSON_parse body with
  | None => None
  | Some data =>
      match credentials_match data with
      | None => None
      | Some true => Some (json_response 200 login_success)
      | Some false => Some (json_response 400 login_failure)
      end
  end.

(** The callback given to [http.createServer], on a request whose body
    has been read to its end. *)
Definition requestHandler (now : Z) (req : Request) : Response :=
  if String.eqb (req_method req) "OPTIONS" then
    {| res_status := 200; res_headers := cors_headers; res_body := EmptyString |}
  else if String.eqb (req_method req) "POST" && String.eqb (req_url req) "/api/auth/login" then
    match try_login (req_body req) with
    | Some r => r
    | None => json_response 400 invalid_json
    end
  else if String.eqb (req_method req) "GET" && String.eqb (req_url req) "/api/posts" then
    json_response 200 (posts_payload now)
  else
    json_response 200 descriptor.

End Handler.

Definition login_request (body : string) : Request :=
  {| req_method := "POST"; req_url := "/api/auth/login"; req_body := body |}.

Definition posts_request (body : string) : Request :=
  {| req_method := "GET"; req_url := "/api/posts"; req_body := body |}.

End Server.

(** ** api.js: the two clock readings of the posts branch

    The posts branch reads the clock twice: [new Date()] for the date of
    the first record and, later, [Date.now()] for the date of the second
    one.  The clock can move between the two, so they are two values
    here.  [Server.requestHandler now] is this handler when both
    readings give [now]. *)
Module Clocked.

(** [first] is the value of [new Date()], [second] the value of
    [Date.now()]. *)
Definition posts_payload (first second : Z) : JSValue :=
  JObj [("success", JBool true);
        ("posts", JArr [
           JObj [("id", JNum 1);
                 ("title", JStr "Welcome to Digital Garden");
                 ("content", JStr "This is your first post! Start writing amazing content.");
                 ("excerpt", JStr "Welcome to your new digital garden where ideas bloom.");
                 ("author", JStr "Admin");
                 ("date", JStr (Date.toISOString first));
                 ("tags", JArr [JStr "welcome"; JStr "first-post"]);
                 ("published", JBool true)];
           JObj [("id", JNum 2);
                 ("title", JStr "Getting Started with Blogging");
                 ("content", JStr "Here are some tips to get started with your blog...");
                 ("excerpt", JStr "Essential tips for new bloggers to create engaging content.");
                 ("author", JStr "Admin");
                 ("date", JStr (Date.toISOString (second - 86400000)));
                 ("tags", JArr [JStr "blogging"; JStr "tips"]);
                 ("published", JBool true)]])].

Section Handler.
Context `{JSONPlatform}.

(** The callback given to [http.createServer], with the two readings
    its posts branch makes. *)
Definition requestHandler (first second : Z) (req : Server.Request) : Server.Response :=
  if String.eqb (Server.req_method req) "OPTIONS" then
    {| Server.res_status := 200;
       Server.res_headers := Server.cors_headers;
       Server.res_body := EmptyString |}
  else if String.eqb (Server.req_method req) "POST"
          && String.eqb (Server.req_url req) "/api/auth/login" then
    match Server.try_login (Server.req_body req) with
    | Some r => r
    | None => Server.json_response 400 Server.invalid_json
    end
  else if String.eqb (Server.req_method req) "GET"
          && String.eqb (Server.req_url req) "/api/posts" then
    Server.json_response 200 (posts_payload first second)
  else
    Server.json_response 200 Server.descriptor.

End Handler.

End Clocked.

(** ** demo-mode.js: the demo API *)
(** The seed texts carry the bytes of the source file. *)
Module DEMO_MODE.

Definition mockUser : JSValue :=
  JObj [("id", JNum 1);
        ("username", JStr "admin");
        ("email", JStr "admin@digitalgarden.com");
        ("name", JStr "Demo Admin")].

Definition mockPosts_elements : list JSValue :=
  [ JObj [("id", JNum 1);
          ("title", JStr "Welcome to Digital Garden 🌱");
          ("content", JStr "This is a demo post showing how the blog looks with content. In a full deployment, this would be connected to a MongoDB database with real user authentication.");
          ("author", JStr "Demo Admin");
          ("date", JStr "2025-09-18");
          ("tags", JArr [JStr "welcome"; JStr "demo"]);
          ("excerpt", JStr "Welcome to our beautiful digital garden blog...")];
    JObj [("id", JNum 2);
          ("title", JStr "Features of This Blog 📝");
          ("content", JStr ("This blog includes:" +:+ newline +:+ newline +:+
             "• Beautiful responsive design" +:+ newline +:+
             "• Dark/Light theme toggle" +:+ newline +:+
             "• User authentication (demo mode)" +:+ newline +:+
             "• MongoDB integration (when backend is running)" +:+ newline +:+
             "• Modern UI with animations" +:+ newline +:+
             "• Mobile-friendly layout"));
          ("author", JStr "Demo Admin");
          ("date", JStr "2025-09-17");
          ("tags", JArr [JStr "features"; JStr "design"]);
          ("excerpt", JStr "Explore all the amazing features built into this blog...")];
    JObj [("id", JNum 3);
          ("title", JStr "How to Deploy with Backend 🚀");
          ("content", JStr ("To get full functionality:" +:+ newline +:+ newline +:+
             "1. Deploy the Node.js backend to a service like Heroku, Railway, or Vercel" +:+ newline +:+
             "2. Set up MongoDB Atlas database" +:+ newline +:+
             "3. Update the API_BASE_URL in config.js" +:+ newline +:+
             "4. Deploy frontend to Netlify/Vercel" +:+ newline +:+ newline +:+
             "For now, enjoy this static demo!"));
          ("author", JStr "Demo Admin");
          ("date", JStr "2025-09-16");
          ("tags", JArr [JStr "deployment"; JStr "guide"]);
          ("excerpt", JStr "Learn how to deploy the full-stack version...")]].

Definition mockPosts : JSValue := JArr mockPosts_elements.

End DEMO_MODE.

(** What a promise of the demo API comes to: it resolves with a value,
    or its timer callback throws and it stays pending. *)
Inductive Outcome :=
  | Resolved (v : JSValue)
  | Threw.

Module DemoAPI.

(** The fields of a [DemoAPI] object. *)
Record instance := {
  isLoggedIn : bool;
  posts : JSValue
}.

Definition not_authenticated : JSValue :=
  JObj [("success", JBool false); ("message", JStr "Not authenticated")].

(** The record [createPost] builds; [now] is the clock reading of the
    timer callback. *)
Definition newPost (now : Z) (title content : string) (tags : list string) : JSValue :=
  JObj [("id", JNum now);
        ("title", JStr title);
        ("content", JStr content);
        ("author", default JUndefined (get_prop DEMO_MODE.mockUser "name"));
        ("date", JStr (split_T_0 (Date.toISOString now)));
        ("tags", JArr (map JStr tags));
        ("excerpt", JStr (String.substring 0 100 content +:+ "..."))].

(** [post.id] of an element that has properties to read. *)
Definition post_id (post : JSValue) : JSValue :=
  default JUndefined (get_prop post "id").

(** An element the callback of [filter] can read [id] from. *)
Definition readable (post : JSValue) : Prop :=
  post <> JNull /\ post <> JUndefined.

(** The posts are an array of values that survive serialisation and that
    the callback of [filter] can read: what the constructor finds on a
    first visit and what the calls below keep. *)
Definition records (w : instance * Storage) : Prop :=
  exists l : list JSValue,
    posts (fst w) = JArr l /\ JSON_safe (JArr l) /\ Forall readable l.

(** The stored text is the serialisation of the posts in memory. *)
Definition in_sync `{JSONPlatform} (w : instance * Storage) : Prop :=
  snd w !! "demo_posts" = Some (JSON_stringify (posts (fst w))).

(** [posts.filter(post => post.id !== postId)]; [None] when the callback
    throws on an element. *)
Fixpoint filter_posts (postId : JSValue) (l : list JSValue) : option (list JSValue) :=
  match l with
  | [] => Some []
  | post :: rest =>
      match get_prop post "id" with
      | None => None
      | Some i =>
          match filter_posts postId rest with
          | None => None
          | Some rest' => Some (if strict_eq i postId then rest' else post :: rest')
          end
      end
  end.

Section Methods.
Context `{JSONPlatform}.

Definition savePostsToStorage (this : instance) (ls : Storage) : Storage :=
  setItem "demo_posts" (JSON_stringify (posts this)) ls.

(** [new DemoAPI()]; [None] when [JSON.parse] throws. *)
Definition new (ls : Storage) : option (instance * Storage) :=
  let logged := strict_eq (getItem "demo_logged_in" ls) (JStr "true") in
  match JSON_parse (item_text (getItem "demo_posts" ls)) with
  | None => None
  | Some v =>
      let this := {| isLoggedIn := logged;
                     posts := if truthy v then v else DEMO_MODE.mockPosts |} in
      Some (this, savePostsToStorage this ls)
  end.

Definition login (now : Z) (username password : JSValue) (w : instance * Storage)
  : instance * Storage * Outcome :=
  let '(this, ls) := w in
  if strict_eq username (JStr "admin") && strict_eq password (JStr "admin123") then
    ({| isLoggedIn := true; posts := posts this |},
     setItem "demo_user" (JSON_stringify DEMO_MODE.mockUser)
       (setItem "demo_logged_in" "true" ls),
     Resolved (JObj [("success", JBool true);
                     ("token", JStr ("demo_token_" +:+ Number_toString now));
                     ("user", DEMO_MODE.mockUser)]))
  else
    (this, ls,
     Resolved (JObj [("success", JBool false);
                     ("message", JStr "Invalid credentials. Try admin/admin123")])).

Definition logout (w : instance * Storage) : instance * Storage * Outcome :=
  let '(this, ls) := w in
  ({| isLoggedIn := false; posts := posts this |},
   removeItem "demo_user" (removeItem "demo_logged_in" ls),
   Resolved (JObj [("success", JBool true)])).

Definition getPosts (w : instance * Storage) : instance * Storage * Outcome :=
  let '(this, ls) := w in
  (this, ls, Resolved (JObj [("success", JBool true); ("posts", posts this)])).

(** [tags] is [None] when the caller leaves it out: it defaults to the
    empty array. *)
Definition createPost (now : Z) (title content : string) (tags : option (list string))
    (w : instance * Storage) : instance * Storage * Outcome :=
  let '(this, ls) := w in
  if negb (isLoggedIn this) then (this, ls, Resolved not_authenticated)
  else
    let post := newPost now title content (default [] tags) in
    match posts this with
    | JArr l =>
        let this' := {| isLoggedIn := isLoggedIn this; posts := JArr (post :: l) |} in
        (this', savePostsToStorage this' ls,
         Resolved (JObj [("success", JBool true);
                         ("post", post);
                         ("message", JStr "Post created successfully (demo mode)")]))
    | _ => (this, ls, Threw)
    end.

Definition deletePost (postId : JSValue) (w : instance * Storage)
  : instance * Storage * Outcome :=
  let '(this, ls) := w in
  if negb (isLoggedIn this) then (this, ls, Resolved not_authenticated)
  else
    match posts this with
    | JArr l =>
        match filter_posts postId l with
        | Some l' =>
            let this' := {| isLoggedIn := isLoggedIn this; posts := JArr l' |} in
            (this', savePostsToStorage this' ls,
             Resolved (JObj [("success", JBool true);
                             ("message", JStr "Post deleted successfully (demo mode)")]))
        | None => (this, ls, Threw)
        end
    | _ => (this, ls, Threw)
    end.

End Methods.

(** The calls a page makes on its [DemoAPI] object. *)
Inductive Call :=
  | CLogin (now : Z) (username password : JSValue)
  | CLogout
  | CGetPosts
  | CCreatePost (now : Z) (title content : string) (tags : option (list string))
  | CDeletePost (postId : JSValue).

Section Run.
Context `{JSONPlatform}.

Definition call (c : Call) (w : instance * Storage) : instance * Storage * Outcome :=
  match c with
  | CLogin now u p => login now u p w
  | CLogout => logout w
  | CGetPosts => getPosts w
  | CCreatePost now title content tags => createPost now title content tags w
  | CDeletePost postId => deletePost postId w
  end.

(** The calls of a page one after the other, each timer callback run to
    its end before the next. *)
Fixpoint run (cs : list Call) (w : instance * Storage) : instance * Storage :=
  match cs with
  | [] => w
  | c :: cs' => run cs' (fst (call c w))
  end.

End Run.

End DemoAPI.

(** ** demo-mode.js: deployment detection *)

(** [hostname] is [window.location.hostname]. *)
Definition isStaticDeployment (hostname : string) : bool :=
  let isLocal := includes hostname "localhost" || includes hostname "127.0.0.1"
                 || String.eqb hostname EmptyString in
  negb isLocal.

(** ** config.js *)
Module Config.

Inductive Environment := development | production | netlify.

(** An entry of [CONFIG]; [DEMO_MODE] is [None] where the entry does not
    have the property. *)
Record t := {
  API_BASE_URL : string;
  APP_NAME : string;
  DEBUG : bool;
  DEMO_MODE : option bool
}.

Definition CONFIG (env : Environment) : t :=
  match env with
  | development =>
      {| API_BASE_URL := "http://127.0.0.1:9090/api";
         APP_NAME := "Digital Garden Blog (Dev)";
         DEBUG := true; DEMO_MODE := None |}
  | production =>
      {| API_BASE_URL := "https://your-backend-api.com/api";
         APP_NAME := "Digital Garden Blog";
         DEBUG := false; DEMO_MODE := None |}
  | netlify =>
      {| API_BASE_URL := "/api";
         APP_NAME := "Digital Garden Blog (Demo)";
         DEBUG := false; DEMO_MODE := Some true |}
  end.

Definition getEnvironment (hostname : string) : Environment :=
  if String.eqb hostname "localhost" || String.eqb hostname "127.0.0.1" then development
  else if includes hostname "netlify.app" || includes hostname "netlify.com" then netlify
  else production.

Definition getConfig (hostname : string) : t := CONFIG (getEnvironment hostname).

End Config.

(** ** demo-mode.js: the page controller *)
Module App.

(** What a request-issuing function of the controller addresses: a
    [fetch] of a URL, or a call on [window.demoAPI]. *)
Inductive Issued :=
  | Fetch (method url : string)
  | Demo (c : DemoAPI.Call).

(** The functions below run in a page whose [window.location.hostname]
    is [hostname]; each returns the request it issues. *)
Definition verifyAuthToken (hostname : string) : Issued :=
  Fetch "GET" "/api/auth/verify".

Definition loadPosts (hostname : string) : Issued :=
  Fetch "GET" "http://127.0.0.1:9090/api/posts".

Definition login (hostname : string) : Issued :=
  Fetch "POST" "http://127.0.0.1:9090/api/auth/login".

Definition createPost (hostname : string) : Issued :=
  Fetch "POST" "/api/posts".

Definition updatePost (hostname : string) (postId : string) : Issued :=
  Fetch "PUT" ("/api/posts/" +:+ postId).

Definition deletePost (hostname : string) (postId : string) : Issued :=
  Fetch "DELETE" ("/api/posts/" +:+ postId).

(** The part of the document the theme code reads and writes: whether
    the element [themeToggle] exists, the class of the icon inside it
    ([None] without an icon), and the attribute [data-theme] of the root
    element ([None] while it is not set). *)
Record DOM := {
  themeToggle : bool;
  icon_className : option string;
  data_theme : option string
}.

(** [v || 'light'] for a [v] that is a string or [null]. *)
Definition or_light (v : option string) : string :=
  match v with
  | Some s => if String.eqb s EmptyString then "light" else s
  | None => "light"
  end.

Definition icon_for (theme : string) : string :=
  if String.eqb theme "dark" then "fas fa-sun" else "fas fa-moon".

(** The end of [bindEvents]: load the saved theme on startup. *)
Definition bindEvents (ls : Storage) (dom : DOM) : DOM :=
  if themeToggle dom then
    let savedTheme := or_light (ls !! "theme") in
    {| themeToggle := true;
       icon_className := option_map (fun _ => icon_for savedTheme) (icon_className dom);
       data_theme := Some savedTheme |}
  else dom.

(** The click listener [bindEvents] puts on [themeToggle]. *)
Definition themeToggle_click (w : Storage * DOM) : Storage * DOM :=
  let '(ls, dom) := w in
  if themeToggle dom then
    let currentTheme := or_light (data_theme dom) in
    let newTheme := if String.eqb currentTheme "dark" then "light" else "dark" in
    (setItem "theme" newTheme ls,
     {| themeToggle := true;
        icon_className := option_map (fun _ => icon_for newTheme) (icon_className dom);
        data_theme := Some newTheme |})
  else w.

End App.

(** ** Conversion to string *)

(** [String(v)], as a template literal and [localStorage.setItem] apply
    it: inside an array [null] and [undefined] give the empty text. *)
Fixpoint ToString (v : JSValue) : string :=
  match v with
  | JUndefined => "undefined"
  | JNull => "null"
  | JBool true => "true"
  | JBool false => "false"
  | JNum n => Number_toString n
  | JStr s => s
  | JArr elems =>
      String.concat ","
        (map (fun x => match x with
                       | JUndefined | JNull => EmptyString
                       | _ => ToString x
                       end) elems)
  | JObj _ => "[object Object]"
  end.

(** ** api.js: the API client *)
Module APIClient.

(** The fields of an [APIClient] object; [token] is a string or [null]
    ([None]). *)
Record instance := {
  baseURL : string;
  token : option string
}.

(** [new APIClient()] *)
Definition new (ls : Storage) : instance :=
  {| baseURL := "http://127.0.0.1:9090/api"; token := ls !! "authToken" |}.

Definition setToken (t : option string) (w : instance * Storage) : instance * Storage :=
  let '(this, ls) := w in
  ({| baseURL := baseURL this; token := t |},
   match t with
   | Some s => if String.eqb s EmptyString then removeItem "authToken" ls
               else setItem "authToken" s ls
   | None => removeItem "authToken" ls
   end).

Definition getToken (this : instance) : option string := token this.

Definition clearToken (w : instance * Storage) : instance * Storage :=
  let '(this, ls) := w in
  ({| baseURL := baseURL this; token := None |}, removeItem "authToken" ls).

End APIClient.

(** ** demo-mode.js: the rest of the demo API *)
Module DemoSession.

Section Methods.
Context `{JSONPlatform}.

(** [getCurrentUser()]; [None] when [JSON.parse] throws. *)
Definition getCurrentUser (w : DemoAPI.instance * Storage) : option JSValue :=
  if DemoAPI.isLoggedIn (fst w)
  then JSON_parse (item_text (getItem "demo_user" (snd w)))
  else Some JNull.

Definition isAuthenticated (this : DemoAPI.instance) : bool := DemoAPI.isLoggedIn this.

(** A state a reload reproduces: the posts survive serialisation and
    are truthy, the stored text is their serialisation, and the login
    flag in memory is the one in storage. *)
Definition settled (w : DemoAPI.instance * Storage) : Prop :=
  JSON_safe (DemoAPI.posts (fst w)) /\
  truthy (DemoAPI.posts (fst w)) = true /\
  DemoAPI.in_sync w /\
  DemoAPI.isLoggedIn (fst w) = strict_eq (getItem "demo_logged_in" (snd w)) (JStr "true").

(** While logged in, the stored user is the serialised mock user. *)
Definition user_stored (w : DemoAPI.instance * Storage) : Prop :=
  DemoAPI.isLoggedIn (fst w) = true ->
  snd w !! "demo_user" = Some (JSON_stringify DEMO_MODE.mockUser).

End Methods.

(** The login flag after a sequence of calls, from the flag before it:
    only a login with the literal credentials and a logout move it. *)
Fixpoint logged_after (cs : list DemoAPI.Call) (b : bool) : bool :=
  match cs with
  | [] => b
  | DemoAPI.CLogin _ u p :: cs' =>
      logged_after cs'
        (if strict_eq u (JStr "admin") && strict_eq p (JStr "admin123") then true else b)
  | DemoAPI.CLogout :: cs' => logged_after cs' false
  | _ :: cs' => logged_after cs' b
  end.

End DemoSession.

(** ** demo-mode.js: the page controller and the replies it receives *)
Module Controller.

(** What [fetch] resolves with: the status and the body text of the
    response.  A [fetch] that rejects (no connection) is [None]. *)
Record Reply := {
  status : Z;
  body : string
}.

(** [response.ok] *)
Definition ok (r : Reply) : bool := (200 <=? status r) && (status r <=? 299).

(** The reply a page receives when its request reaches the basic
    server. *)
Definition reply_of (r : Server.Response) : Reply :=
  {| status := Server.res_status r; body := Server.res_body r |}.

(** The path the server at [http://127.0.0.1:9090] sees for a URL. *)
Definition path_of (url : string) : string :=
  match JSON.strip_prefix "http://127.0.0.1:9090" url with
  | Some path => path
  | None => url
  end.

(** The request the basic server receives for a [fetch] of the
    controller. *)
Definition deliver (i : App.Issued) (body : string) : option Server.Request :=
  match i with
  | App.Fetch method url =>
      Some {| Server.req_method := method;
              Server.req_url := path_of url;
              Server.req_body := body |}
  | App.Demo _ => None
  end.

(** The global variables [currentUser] and [posts]. *)
Record State := {
  currentUser : JSValue;
  posts : JSValue
}.

Definition initial : State := {| currentUser := JNull; posts := JArr [] |}.

(** Whether the template of [renderPosts] evaluates on [post] without a
    TypeError: [post.content.substring] needs [content] to be a string,
    and [(post.tags || []).map] needs a truthy [tags] to be an array. *)
Definition post_renders (post : JSValue) : bool :=
  match post with
  | JObj ps =>
      match assoc "content" ps with
      | Some (JStr _) =>
          match default JUndefined (assoc "tags" ps) with
          | JArr _ => true
          | t => negb (truthy t)
          end
      | _ => false
      end
  | _ => false
  end.

(** Whether [renderPosts()] throws on the value of [posts]; [postsGrid]
    says whether the element of that id exists (without it the function
    returns at once). *)
Definition renderPosts_throws (postsGrid : bool) (p : JSValue) : bool :=
  if negb postsGrid then false
  else
    match p with
    | JArr l => negb (forallb post_renders l)
    | JObj ps => negb (strict_eq (default JUndefined (assoc "length" ps)) (JNum 0))
    | JStr s => negb (String.eqb s EmptyString)
    | _ => true
    end.

(** [initializeApp]: the request the authentication check issues. *)
Definition initializeApp (hostname : string) (ls : Storage) : App.Issued :=
  if truthy (getItem "authToken" ls) then App.verifyAuthToken hostname
  else App.loadPosts hostname.

(** [logout()] *)
Definition logout (w : State * Storage) : State * Storage :=
  let '(st, ls) := w in
  ({| currentUser := JNull; posts := posts st |}, removeItem "authToken" ls).

(** [posts.find(p => p._id === postId)]; [None] when the callback
    throws, [Some JUndefined] when no element matches. *)
Fixpoint find_by__id (postId : JSValue) (l : list JSValue) : option JSValue :=
  match l with
  | [] => Some JUndefined
  | p :: rest =>
      match get_prop p "_id" with
      | None => None
      | Some i => if strict_eq i postId then Some p else find_by__id postId rest
      end
  end.

(** [viewPost(postId)]: [None] when it throws, [Some None] when it
    returns without showing anything, [Some (Some text)] when it shows
    [text] in an alert. *)
Definition viewPost (postId : JSValue) (st : State) : option (option string) :=
  match posts st with
  | JArr l =>
      match find_by__id postId l with
      | None => None
      | Some post =>
          if negb (truthy post) then Some None
          else
            Some (Some ("Title: " +:+ ToString (default JUndefined (get_prop post "title"))
                        +:+ newline +:+ newline +:+
                        "Content: " +:+ ToString (default JUndefined (get_prop post "content"))))
      end
  | _ => None
  end.

(** [s.trim()] on code units below 256: tab, line feed, vertical tab,
    form feed, carriage return, space and no-break space. *)
Definition is_space (c : ascii) : bool :=
  let n := N_of_ascii c in
  ((9 <=? n) && (n <=? 13))%N || (n =? 32)%N || (n =? 160)%N.

Fixpoint trimStart (s : string) : string :=
  match s with
  | String c r => if is_space c then trimStart r else s
  | EmptyString => EmptyString
  end.

Fixpoint trimEnd (s : string) : string :=
  match s with
  | EmptyString => EmptyString
  | String c r =>
      match trimEnd r with
      | EmptyString => if is_space c then EmptyString else String c EmptyString
      | r' => String c r'
      end
  end.

Definition trim (s : string) : string := trimEnd (trimStart s).

(** [s.split(',')] *)
Fixpoint split_comma (s : string) : list string :=
  match s with
  | EmptyString => [EmptyString]
  | String c r =>
      if Ascii.eqb c ","%char then EmptyString :: split_comma r
      else
        match split_comma r with
        | x :: xs => String c x :: xs
        | [] => [String c EmptyString]
        end
  end.

(** [tagsText.split(',').map(tag => tag.trim()).filter(tag => tag)] *)
Definition parse_tags (tagsText : string) : list string :=
  List.filter (fun tag => negb (String.eqb tag EmptyString))
    (map trim (split_comma tagsText)).

(** [(post.tags || []).join(', ')] on an array of strings, as
    [editPost] writes it into the tags input. *)
Definition join_tags (tags : list string) : string := String.concat ", " tags.

(** A tag as [parse_tags] returns it. *)
Definition clean_tag (t : string) : Prop :=
  t <> EmptyString /\ trim t = t /\ includes t "," = false.

Section Replies.
Context `{JSONPlatform}.

(** The body [login] sends. *)
Definition login_body (username password : string) : string :=
  JSON_stringify (JObj [("username", JStr username); ("password", JStr password)]).

(** The body [createPost] and [updatePost] send, [None] when the title
    or the content is empty and no request is made. *)
Definition post_body (title content category tagsText : string) : option string :=
  if String.eqb title EmptyString || String.eqb content EmptyString then None
  else
    Some (JSON_stringify
            (JObj [("title", JStr title);
                   ("content", JStr content);
                   ("category", JStr category);
                   ("tags", JArr (map JStr (parse_tags tagsText)))])).

(** [loadPosts()] once its [fetch] has settled with [reply]. *)
Definition loadPosts_done (postsGrid : bool) (reply : option Reply) (st : State) : State :=
  let failed := {| currentUser := currentUser st; posts := JArr [] |} in
  match reply with
  | None => failed
  | Some r =>
      match JSON_parse (body r) with
      | None => failed
      | Some data =>
          match get_prop data "success" with
          | None => failed
          | Some s =>
              if truthy s then
                let p := default JUndefined (get_prop data "posts") in
                let p' := if truthy p then p else JArr [] in
                if renderPosts_throws postsGrid p' then failed
                else {| currentUser := currentUser st; posts := p' |}
              else failed
          end
      end
  end.

(** [login(username, password)] once its [fetch] has settled with
    [reply]: the state it leaves and the boolean it returns. *)
Definition login_done (reply : option Reply) (w : State * Storage)
  : State * Storage * bool :=
  let '(st, ls) := w in
  match reply with
  | None => (st, ls, false)
  | Some r =>
      match JSON_parse (body r) with
      | None => (st, ls, false)
      | Some data =>
          match get_prop data "success" with
          | None => (st, ls, false)
          | Some s =>
              if truthy s then
                let field k := default JUndefined (get_prop data k) in
                ({| currentUser := field "user"; posts := posts st |},
                 setItem "authToken" (ToString (field "token")) ls,
                 true)
              else (st, ls, false)
          end
      end
  end.

(** [verifyAuthToken(token)] once its [fetch] has settled with
    [reply]. *)
Definition verifyAuthToken_done (reply : option Reply) (w : State * Storage)
  : State * Storage :=
  let '(st, ls) := w in
  let rejected := (st, removeItem "authToken" ls) in
  match reply with
  | None => rejected
  | Some r =>
      if negb (ok r) then rejected
      else
        match JSON_parse (body r) with
        | None => rejected
        | Some data =>
            match get_prop data "success" with
            | None => rejected
            | Some s =>
                let user := default JUndefined (get_prop data "user") in
                if truthy s && truthy user
                then ({| currentUser := user; posts := posts st |}, ls)
                else rejected
            end
        end
  end.

(** The test [createPost], [updatePost] and [deletePost] make on the
    reply to their request: [data.success], false when the [fetch]
    rejects, the body is not JSON or the property read throws. *)
Definition mutation_succeeded (reply : option Reply) : bool :=
  match reply with
  | None => false
  | Some r =>
      match JSON_parse (body r) with
      | None => false
      | Some data =>
          match get_prop data "success" with
          | None => false
          | Some s => truthy s
          end
      end
  end.

End Replies.

(** The document after [n] clicks on the theme toggle. *)
Fixpoint clicks (n : nat) (w : Storage * App.DOM) : Storage * App.DOM :=
  match n with
  | O => w
  | S n' => clicks n' (App.themeToggle_click w)
  end.

(** The icon shows the sun exactly in the dark theme, and the stored
    theme is the applied one. *)
Definition theme_coherent (w : Storage * App.DOM) : Prop :=
  exists t : string,
    (t = "light" \/ t = "dark") /\
    App.data_theme (snd w) = Some t /\
    fst w !! "theme" = Some t /\
    (forall cls, App.icon_className (snd w) = Some cls ->
       cls = if String.eqb t "dark" then "fas fa-sun" else "fas fa-moon").

End Controller.

(** The model of JSON above as a platform. *)
#[local] Instance JSON_model : JSONPlatform :=
  {| JSON_parse := JSON.parse; JSON_stringify := JSON.stringify |}.

(** ** Sample inputs *)
Module Sample.

(** A clock reading: 2025-11-01T18:57:36.789Z. *)
Definition now : Z := 1762023456789.

(** The body a browser sends for the credentials of the README. *)
Definition admin_body : string :=
  JSON.stringify (JObj [("username", JStr "admin"); ("password", JStr "admin123")]).

Definition wrong_body : string :=
  JSON.stringify (JObj [("username", JStr "admin"); ("password", JStr "admin")]).

Definition options_request : Server.Request :=
  {| Server.req_method := "OPTIONS"; Server.req_url := "/api/posts";
     Server.req_body := EmptyString |}.

Definition unknown_request : Server.Request :=
  {| Server.req_method := "GET"; Server.req_url := "/api/auth/verify";
     Server.req_body := EmptyString |}.

(** A demo API on a first visit, before and after a login. *)
Definition guest : DemoAPI.instance :=
  {| DemoAPI.isLoggedIn := false; DemoAPI.posts := DEMO_MODE.mockPosts |}.

Definition admin : DemoAPI.instance :=
  {| DemoAPI.isLoggedIn := true; DemoAPI.posts := DEMO_MODE.mockPosts |}.

Definition stored : Storage :=
  DemoAPI.savePostsToStorage (H := JSON_model) guest ∅.

Definition session : list DemoAPI.Call :=
  [DemoAPI.CCreatePost now "Too early" "Not logged in yet" None;
   DemoAPI.CLogin now (JStr "admin") (JStr "admin123");
   DemoAPI.CCreatePost now "Hello" "First words" (Some ["intro"]);
   DemoAPI.CDeletePost (JNum 2);
   DemoAPI.CGetPosts;
   DemoAPI.CLogout].

Definition page : App.DOM :=
  {| App.themeToggle := true;
     App.icon_className := Some "fas fa-moon";
     App.data_theme := None |}.

Definition dark_store : Storage := {["theme" := "dark"]}.

End Sample.

(** * Properties *)

(** ** Strict equality and helpers *)

Lemma strict_eq_str (v : JSValue) (s : string) :
  strict_eq v (JStr s) = true <-> v = JStr s.
Proof.
  destruct v; simpl; split; intros E; try discriminate.
  - apply String.eqb_eq in E. congruence.
  - inversion E. apply String.eqb_refl.
Qed.

(** On primitives [===] is equality of values. *)
Lemma strict_eq_true (a b : JSValue) : strict_eq a b = true -> a = b.
Proof.
  destruct a, b; simpl; intros E; try discriminate; try reflexivity.
  - apply Bool.eqb_prop in E. congruence.
  - apply Z.eqb_eq in E. congruence.
  - apply String.eqb_eq in E. congruence.
Qed.

Lemma credentials_match_true (data : JSValue) :
  Server.credentials_match data = Some true <->
  get_prop data "username" = Some (JStr "admin") /\
  get_prop data "password" = Some (JStr "admin123").
Proof.
  unfold Server.credentials_match.
  destruct (get_prop data "username") as [u|]; [|split; [discriminate | intros [E _]; discriminate]].
  destruct (strict_eq u (JStr "admin")) eqn:Eu.
  - apply strict_eq_str in Eu. subst u.
    destruct (get_prop data "password") as [p|]; [|split; [discriminate | intros [_ E]; discriminate]].
    destruct (strict_eq p (JStr "admin123")) eqn:Ep.
    + apply strict_eq_str in Ep. subst p. split; auto.
    + split; [discriminate|]. intros [_ E]. inversion E as [E']. subst p.
      simpl in Ep. discriminate.
  - split; [discriminate|]. intros [E _]. inversion E as [E']. subst u.
    simpl in Eu. discriminate.
Qed.

(** ** The HTTP server *)

(** C1. A login succeeds exactly on the literal credentials: the reply of
    the server to a [POST /api/auth/login] serialises a value whose
    [success] is [true] exactly when the body parses to a value whose
    [username] is ['admin'] and whose [password] is ['admin123'], and
    [DemoAPI.login] resolves a value whose [success] is [true] exactly
    when its two arguments are these strings; [success] is [false]
    in every other case. *)
Theorem login_success_iff_admin_credentials `{JSONPlatform} :
  (forall (now : Z) (body : string),
     exists (v : JSValue) (b : bool),
       Server.res_body (Server.requestHandler now (Server.login_request body))
         = JSON_stringify v /\
       get_prop v "success" = Some (JBool b) /\
       (b = true <->
        exists data, JSON_parse body = Some data /\
          get_prop data "username" = Some (JStr "admin") /\
          get_prop data "password" = Some (JStr "admin123"))) /\
  (forall (now : Z) (username password : JSValue) (w : DemoAPI.instance * Storage),
     exists (v : JSValue) (b : bool),
       snd (DemoAPI.login now username password w) = Resolved v /\
       get_prop v "success" = Some (JBool b) /\
       (b = true <-> username = JStr "admin" /\ password = JStr "admin123")).
Proof.
  split.
  - intros now body. unfold Server.requestHandler, Server.try_login. cbn.
    destruct (JSON_parse body) as [data|] eqn:Ep.
    + destruct (Server.credentials_match data) as [[|]|] eqn:Ec.
      * exists Server.login_success, true. repeat split; auto.
        intros _. exists data. split; [reflexivity|].
        now apply credentials_match_true.
      * exists Server.login_failure, false. repeat split; auto; try discriminate.
        intros (d & Ed & Hd). inversion Ed; subst d.
        apply credentials_match_true in Hd. congruence.
      * exists Server.invalid_json, false. repeat split; auto; try discriminate.
        intros (d & Ed & Hd). inversion Ed; subst d.
        apply credentials_match_true in Hd. congruence.
    + exists Server.invalid_json, false. repeat split; auto; try discriminate.
      intros (d & Ed & _). discriminate.
  - intros now username password [this ls]. unfold DemoAPI.login.
    destruct (strict_eq username (JStr "admin")) eqn:Eu; cbn -[Number_toString].
    + destruct (strict_eq password (JStr "admin123")) eqn:Epw; cbn -[Number_toString].
      * eexists _, true. repeat split; try reflexivity.
        -- now apply strict_eq_str.
        -- now apply strict_eq_str.
      * eexists _, false. repeat split; try reflexivity; try discriminate.
        intros [_ E]. apply strict_eq_str in E. congruence.
    + eexists _, false. repeat split; try reflexivity; try discriminate.
      intros [E _]. apply strict_eq_str in E. congruence.
Qed.

(** The handler with one reading is the handler with two readings that
    give the same value. *)
Lemma requestHandler_same_reading `{JSONPlatform} (now : Z) (req : Server.Request) :
  Server.requestHandler now req = Clocked.requestHandler now now req.
Proof. reflexivity. Qed.

(** C2, amended. The reply to [GET /api/posts] has status 200 and
    serialises [success = true] with a list of two records.  Two
    invocations agree on every property of the two records other than
    [date]; the [date] of the first record is the ISO text of the first
    clock reading of the invocation ([new Date()]) and the [date] of the
    second record is the ISO text of the instant 24 hours before its
    second clock reading ([Date.now()]); two invocations whose two
    readings are the same give equal replies. *)
Theorem posts_replies_agree_up_to_date `{JSONPlatform}
    (first1 second1 first2 second2 : Z) (body1 body2 : string) :
  let r1 := Clocked.requestHandler first1 second1 (Server.posts_request body1) in
  let r2 := Clocked.requestHandler first2 second2 (Server.posts_request body2) in
  exists p1 q1 p2 q2 : JSValue,
    Server.res_status r1 = 200 /\ Server.res_status r2 = 200 /\
    Server.res_body r1 =
      JSON_stringify (JObj [("success", JBool true); ("posts", JArr [p1; q1])]) /\
    Server.res_body r2 =
      JSON_stringify (JObj [("success", JBool true); ("posts", JArr [p2; q2])]) /\
    (forall k : string, k <> "date" ->
       get_prop p1 k = get_prop p2 k /\ get_prop q1 k = get_prop q2 k) /\
    get_prop p1 "id" = Some (JNum 1) /\ get_prop q1 "id" = Some (JNum 2) /\
    get_prop p1 "date" = Some (JStr (Date.toISOString first1)) /\
    get_prop q1 "date" = Some (JStr (Date.toISOString (second1 - 86400000))) /\
    get_prop p2 "date" = Some (JStr (Date.toISOString first2)) /\
    get_prop q2 "date" = Some (JStr (Date.toISOString (second2 - 86400000))) /\
    (first1 = first2 -> second1 = second2 -> r1 = r2).
Proof.
  cbv zeta. unfold Clocked.requestHandler, Server.posts_request; cbn -[Date.toISOString].
  do 4 eexists. do 4 (split; [reflexivity|]).
  split.
  - intros k Hk. unfold get_prop. cbn -[Date.toISOString String.eqb].
    destruct (String.eqb_spec k "date") as [->|_]; [contradiction|].
    repeat match goal with
           | |- context [String.eqb k ?s] => destruct (String.eqb k s)
           end; split; reflexivity.
  - repeat split; try reflexivity.
    intros -> ->. reflexivity.
Qed.

(** C6, amended. A request whose method is neither [OPTIONS] nor
    [HEAD] and which is neither [POST /api/auth/login] nor
    [GET /api/posts] gets status 200 and the serialised service
    descriptor (its properties are [message], [version], [endpoints] and
    [status]); a request whose method is [OPTIONS] gets status 200 and an
    empty body, whatever its path; a request whose method is [HEAD] gets
    status 200, and nothing is said of its body, which the platform does
    not send in reply to [HEAD]. *)
Theorem unmatched_request_gets_descriptor `{JSONPlatform}
    (now : Z) (req : Server.Request) :
  (Server.req_method req <> "OPTIONS" ->
   Server.req_method req <> "HEAD" ->
   ~ (Server.req_method req = "POST" /\ Server.req_url req = "/api/auth/login") ->
   ~ (Server.req_method req = "GET" /\ Server.req_url req = "/api/posts") ->
   Server.res_status (Server.requestHandler now req) = 200 /\
   Server.res_body (Server.requestHandler now req) =
     JSON_stringify
       (JObj [("message", JStr "Digital Garden Blog API Server");
              ("version", JStr "1.0.0");
              ("endpoints",
               JObj [("POST /api/auth/login", JStr "User authentication");
                     ("GET /api/posts", JStr "Fetch blog posts")]);
              ("status", JStr "running")])) /\
  (Server.req_method req = "OPTIONS" ->
   Server.res_status (Server.requestHandler now req) = 200 /\
   Server.res_body (Server.requestHandler now req) = EmptyString) /\
  (Server.req_method req = "HEAD" ->
   Server.res_status (Server.requestHandler now req) = 200).
Proof.
  unfold Server.requestHandler. split; [|split].
  - intros Hopt _ Hlogin Hposts.
    destruct (String.eqb_spec (Server.req_method req) "OPTIONS") as [E|_]; [contradiction|].
    destruct (String.eqb_spec (Server.req_method req) "POST") as [Em|_];
      destruct (String.eqb_spec (Server.req_url req) "/api/auth/login") as [Eu|_];
      try (exfalso; apply Hlogin; now split); cbn [andb];
      destruct (String.eqb_spec (Server.req_method req) "GET") as [Em'|_];
      destruct (String.eqb_spec (Server.req_url req) "/api/posts") as [Eu'|_];
      try (exfalso; apply Hposts; now split); cbn [andb]; split; reflexivity.
  - intros ->. cbn. split; reflexivity.
  - intros ->. reflexivity.
Qed.

(** C7. A [POST /api/auth/login] whose body [JSON.parse] refuses gets
    status 400 and the serialisation of
    [{success: false, message: 'Invalid JSON'}]. *)
Theorem malformed_login_body_gets_400 `{JSONPlatform}
    (now : Z) (req : Server.Request) :
  Server.req_method req = "POST" ->
  Server.req_url req = "/api/auth/login" ->
  JSON_parse (Server.req_body req) = None ->
  Server.res_status (Server.requestHandler now req) = 400 /\
  Server.res_body (Server.requestHandler now req) =
    JSON_stringify (JObj [("success", JBool false); ("message", JStr "Invalid JSON")]).
Proof.
  intros Hm Hu Hp. unfold Server.requestHandler, Server.try_login.
  rewrite Hm, Hu, Hp. cbn. split; reflexivity.
Qed.

(** ** The demo API *)

Lemma filter_posts_readable (postId : JSValue) (l : list JSValue) :
  Forall DemoAPI.readable l ->
  DemoAPI.filter_posts postId l =
    Some (List.filter (fun p => negb (strict_eq (DemoAPI.post_id p) postId)) l).
Proof.
  induction 1 as [|p l [Hn Hu] _ IH]; [reflexivity|].
  assert (Hid : exists i, get_prop p "id" = Some i)
    by (destruct p; try contradiction; eexists; reflexivity).
  destruct Hid as [i Ei].
  cbn [DemoAPI.filter_posts List.filter]. rewrite IH.
  unfold DemoAPI.post_id. rewrite Ei. cbn.
  destruct (strict_eq i postId); reflexivity.
Qed.

Lemma filter_sublist {A : Type} (f : A -> bool) (l : list A) :
  sublist (List.filter f l) l.
Proof.
  induction l as [|x l IH]; cbn.
  - constructor.
  - destruct (f x); now constructor.
Qed.

Lemma tags_safe (tags : list string) : JSON_safe (JArr (map JStr tags)).
Proof. induction tags as [|t tags IH]; cbn; auto. Qed.

Lemma newPost_safe (now : Z) (title content : string) (tags : list string) :
  JSON_safe (DemoAPI.newPost now title content tags).
Proof.
  unfold DemoAPI.newPost. cbn -[Date.toISOString String.substring].
  split.
  - apply (bool_decide_unpack _). vm_compute. reflexivity.
  - repeat split. apply tags_safe.
Qed.

(** Every call on the demo API keeps the stored text in step with the
    posts in memory. *)
Lemma call_in_sync `{JSONPlatform} (c : DemoAPI.Call) (w : DemoAPI.instance * Storage) :
  DemoAPI.in_sync w -> DemoAPI.in_sync (fst (DemoAPI.call c w)).
Proof.
  destruct w as [this ls]. unfold DemoAPI.in_sync. cbn [fst snd]. intros Hs.
  destruct c; cbn [DemoAPI.call].
  - unfold DemoAPI.login.
    destruct (strict_eq username (JStr "admin") && strict_eq password (JStr "admin123"));
      cbn [fst snd DemoAPI.posts]; [|exact Hs].
    unfold setItem. rewrite !lookup_insert_ne by discriminate. exact Hs.
  - unfold DemoAPI.logout, removeItem. cbn [fst snd DemoAPI.posts].
    rewrite !lookup_delete_ne by discriminate. exact Hs.
  - exact Hs.
  - unfold DemoAPI.createPost.
    destruct (negb (DemoAPI.isLoggedIn this)); [exact Hs|].
    destruct (DemoAPI.posts this) eqn:Ep; cbn [fst snd]; rewrite ?Ep; try exact Hs.
    unfold DemoAPI.savePostsToStorage, setItem.
    apply lookup_insert_eq.
  - unfold DemoAPI.deletePost.
    destruct (negb (DemoAPI.isLoggedIn this)); [exact Hs|].
    destruct (DemoAPI.posts this) eqn:Ep; cbn [fst snd]; rewrite ?Ep; try exact Hs.
    destruct (DemoAPI.filter_posts postId elems); cbn [fst snd]; rewrite ?Ep; try exact Hs.
    unfold DemoAPI.savePostsToStorage, setItem.
    apply lookup_insert_eq.
Qed.

Lemma run_in_sync `{JSONPlatform} (cs : list DemoAPI.Call) :
  forall w : DemoAPI.instance * Storage,
    DemoAPI.in_sync w -> DemoAPI.in_sync (DemoAPI.run cs w).
Proof.
  induction cs as [|c cs IH]; intros w Hw; cbn [DemoAPI.run]; [exact Hw|].
  apply IH. now apply call_in_sync.
Qed.

Lemma safe_filter (f : JSValue -> bool) (l : list JSValue) :
  JSON_safe (JArr l) -> JSON_safe (JArr (List.filter f l)).
Proof.
  induction l as [|x l IH]; [auto|].
  intros [Sx Sl]. cbn [List.filter]. destruct (f x).
  - split; [exact Sx | exact (IH Sl)].
  - exact (IH Sl).
Qed.

Lemma readable_filter (f : JSValue -> bool) (l : list JSValue) :
  Forall DemoAPI.readable l -> Forall DemoAPI.readable (List.filter f l).
Proof.
  induction 1 as [|x l Hx Hl IH]; cbn [List.filter]; [constructor|].
  destruct (f x); [constructor|]; auto.
Qed.

(** Every call keeps the posts an array of readable JSON values. *)
Lemma call_records `{JSONPlatform} (c : DemoAPI.Call) (w : DemoAPI.instance * Storage) :
  DemoAPI.records w -> DemoAPI.records (fst (DemoAPI.call c w)).
Proof.
  destruct w as [this ls]. intros (l & Hl & Sl & Rl). cbn [fst] in Hl.
  destruct c; cbn [DemoAPI.call].
  - unfold DemoAPI.login.
    destruct (strict_eq username (JStr "admin") && strict_eq password (JStr "admin123"));
      exists l; auto.
  - exists l; auto.
  - exists l; auto.
  - unfold DemoAPI.createPost. rewrite Hl.
    destruct (negb (DemoAPI.isLoggedIn this)); [exists l; auto|].
    eexists. split; [reflexivity|]. split.
    + split; [apply newPost_safe | exact Sl].
    + constructor; [split; discriminate | exact Rl].
  - unfold DemoAPI.deletePost. rewrite Hl, (filter_posts_readable postId l Rl).
    destruct (negb (DemoAPI.isLoggedIn this)); [exists l; auto|].
    eexists. split; [reflexivity|].
    split; [now apply safe_filter | now apply readable_filter].
Qed.

Lemma run_records `{JSONPlatform} (cs : list DemoAPI.Call) :
  forall w : DemoAPI.instance * Storage,
    DemoAPI.records w -> DemoAPI.records (DemoAPI.run cs w).
Proof.
  induction cs as [|c cs IH]; intros w Hw; cbn [DemoAPI.run]; [exact Hw|].
  apply IH. now apply call_records.
Qed.

(** A constructor that finds the serialisation of a truthy value under
    ['demo_posts'] takes that value as its posts. *)
Lemma new_reads_back `{JSONPlatform} (ls : Storage) (v : JSValue) :
  JSON_roundtrip -> JSON_safe v -> truthy v = true ->
  ls !! "demo_posts" = Some (JSON_stringify v) ->
  exists (this2 : DemoAPI.instance) (ls2 : Storage),
    DemoAPI.new ls = Some (this2, ls2) /\ DemoAPI.posts this2 = v.
Proof.
  intros Hrt Hsafe Htr Hst. unfold DemoAPI.new.
  replace (getItem "demo_posts" ls) with (JStr (JSON_stringify v))
    by (unfold getItem; now rewrite Hst).
  cbn [item_text]. rewrite (Hrt v Hsafe), Htr.
  do 2 eexists. split; reflexivity.
Qed.

(** C3. In a logged-in state whose posts are a list [l] of values that
    survive serialisation, on a platform that reads back what it wrote,
    [createPost] resolves successfully, puts a new record in front of
    [l], with the first 100 characters of [content] followed by ['...']
    as its [excerpt], stores the serialised new list under
    ['demo_posts'], and a [DemoAPI] constructed afterwards from that
    storage has the new record at the head of its posts, before [l]. *)
Theorem createPost_prepends_and_persists `{JSONPlatform}
    (now : Z) (title content : string) (tags : option (list string))
    (this : DemoAPI.instance) (ls : Storage) (l : list JSValue) :
  JSON_roundtrip ->
  DemoAPI.isLoggedIn this = true ->
  DemoAPI.posts this = JArr l ->
  JSON_safe (JArr l) ->
  let post := DemoAPI.newPost now title content (default [] tags) in
  exists (this' : DemoAPI.instance) (ls' : Storage),
    DemoAPI.createPost now title content tags (this, ls) =
      (this', ls',
       Resolved (JObj [("success", JBool true); ("post", post);
                       ("message", JStr "Post created successfully (demo mode)")])) /\
    DemoAPI.posts this' = JArr (post :: l) /\
    get_prop post "excerpt" = Some (JStr (String.substring 0 100 content +:+ "...")) /\
    get_prop post "title" = Some (JStr title) /\
    get_prop post "content" = Some (JStr content) /\
    ls' !! "demo_posts" = Some (JSON_stringify (JArr (post :: l))) /\
    exists (this2 : DemoAPI.instance) (ls2 : Storage),
      DemoAPI.new ls' = Some (this2, ls2) /\
      DemoAPI.posts this2 = JArr (post :: l).
Proof.
  intros Hrt Hlog Hposts Hsafe post.
  unfold DemoAPI.createPost. rewrite Hlog, Hposts. cbn [negb].
  do 2 eexists. split; [reflexivity|].
  split; [reflexivity|]. split; [reflexivity|].
  split; [reflexivity|]. split; [reflexivity|].
  assert (Hst : DemoAPI.savePostsToStorage
                  {| DemoAPI.isLoggedIn := true; DemoAPI.posts := JArr (post :: l) |} ls
                !! "demo_posts" = Some (JSON_stringify (JArr (post :: l)))).
  { unfold DemoAPI.savePostsToStorage, setItem. apply lookup_insert_eq. }
  split; [exact Hst|].
  apply new_reads_back; auto.
  split; [apply newPost_safe | exact Hsafe].
Qed.

(** C4. In a logged-in state whose posts are a list of records,
    [deletePost postId] resolves successfully and leaves exactly the
    records whose [id] is not strictly equal to [postId]: every record
    with that [id] goes, every other record stays, unchanged and in the
    original order, and the serialised filtered list is stored under
    ['demo_posts']. *)
Theorem deletePost_removes_matching_records `{JSONPlatform}
    (postId : JSValue) (this : DemoAPI.instance) (ls : Storage) (l : list JSValue) :
  DemoAPI.isLoggedIn this = true ->
  DemoAPI.posts this = JArr l ->
  Forall DemoAPI.readable l ->
  exists (this' : DemoAPI.instance) (ls' : Storage) (l' : list JSValue),
    DemoAPI.deletePost postId (this, ls) =
      (this', ls',
       Resolved (JObj [("success", JBool true);
                       ("message", JStr "Post deleted successfully (demo mode)")])) /\
    DemoAPI.posts this' = JArr l' /\
    DemoAPI.isLoggedIn this' = true /\
    l' = List.filter (fun p => negb (strict_eq (DemoAPI.post_id p) postId)) l /\
    sublist l' l /\
    (forall p : JSValue,
       In p l' <-> In p l /\ strict_eq (DemoAPI.post_id p) postId = false) /\
    ls' = <["demo_posts" := JSON_stringify (JArr l')]> ls /\
    ls' !! "demo_posts" = Some (JSON_stringify (JArr l')).
Proof.
  intros Hlog Hposts Hrec.
  unfold DemoAPI.deletePost. rewrite Hlog, Hposts. cbn [negb].
  rewrite (filter_posts_readable postId l Hrec).
  do 3 eexists. split; [reflexivity|].
  split; [reflexivity|]. split; [reflexivity|]. split; [reflexivity|].
  split; [apply filter_sublist|].
  split.
  - intros p. rewrite List.filter_In, Bool.negb_true_iff. reflexivity.
  - split; [reflexivity|].
    unfold DemoAPI.savePostsToStorage, setItem. apply lookup_insert_eq.
Qed.

(** C9. While [isLoggedIn] is false, [createPost] and [deletePost]
    resolve [{success: false, message: 'Not authenticated'}] and leave
    the object and the storage, so the posts in memory and the text
    under ['demo_posts'], as they were. *)
Theorem unauthenticated_mutation_is_refused `{JSONPlatform}
    (this : DemoAPI.instance) (ls : Storage) :
  DemoAPI.isLoggedIn this = false ->
  let refused :=
    Resolved (JObj [("success", JBool false); ("message", JStr "Not authenticated")]) in
  (forall now title content tags,
     DemoAPI.createPost now title content tags (this, ls) = (this, ls, refused)) /\
  (forall postId,
     DemoAPI.deletePost postId (this, ls) = (this, ls, refused)) /\
  (forall now title content tags,
     let w' := fst (DemoAPI.createPost now title content tags (this, ls)) in
     DemoAPI.posts (fst w') = DemoAPI.posts this /\
     snd w' !! "demo_posts" = ls !! "demo_posts") /\
  (forall postId,
     let w' := fst (DemoAPI.deletePost postId (this, ls)) in
     DemoAPI.posts (fst w') = DemoAPI.posts this /\
     snd w' !! "demo_posts" = ls !! "demo_posts").
Proof.
  intros Hlog refused.
  unfold DemoAPI.createPost, DemoAPI.deletePost. rewrite Hlog. cbn.
  repeat split.
Qed.

(** C10. When the [DemoAPI] constructor completes, the text stored under
    ['demo_posts'] is the serialisation of the [posts] field, and it
    still is after every sequence of calls on the object ([login],
    [logout], [getPosts], [createPost], [deletePost]). *)
Theorem stored_posts_stay_in_sync `{JSONPlatform}
    (ls ls' : Storage) (this : DemoAPI.instance) (cs : list DemoAPI.Call) :
  DemoAPI.new ls = Some (this, ls') ->
  ls' !! "demo_posts" = Some (JSON_stringify (DemoAPI.posts this)) /\
  snd (DemoAPI.run cs (this, ls')) !! "demo_posts" =
    Some (JSON_stringify (DemoAPI.posts (fst (DemoAPI.run cs (this, ls'))))).
Proof.
  intros Hnew.
  assert (H0 : DemoAPI.in_sync (this, ls')).
  { unfold DemoAPI.new in Hnew.
    destruct (JSON_parse (item_text (getItem "demo_posts" ls))) as [v|]; [|discriminate].
    inversion Hnew; subst. unfold DemoAPI.in_sync, DemoAPI.savePostsToStorage, setItem.
    cbn [fst snd DemoAPI.posts]. apply lookup_insert_eq. }
  split; [exact H0|].
  exact (run_in_sync cs (this, ls') H0).
Qed.

(** ** The page controller *)

(** C5, on the code. On a static host ([myblog.netlify.app]) the
    deployment detection answers static, the configuration selected has
    [DEMO_MODE] set, and [loadPosts] still fetches from the local
    server, as it does on [localhost]: the request does not depend on
    the detected environment. *)
Theorem loadPosts_ignores_detected_environment :
  isStaticDeployment "myblog.netlify.app" = true /\
  Config.getEnvironment "myblog.netlify.app" = Config.netlify /\
  Config.DEMO_MODE (Config.getConfig "myblog.netlify.app") = Some true /\
  isStaticDeployment "localhost" = false /\
  App.loadPosts "myblog.netlify.app" = App.Fetch "GET" "http://127.0.0.1:9090/api/posts" /\
  App.loadPosts "localhost" = App.Fetch "GET" "http://127.0.0.1:9090/api/posts" /\
  (forall hostname c, App.loadPosts hostname <> App.Demo c).
Proof.
  repeat split; try (vm_compute; reflexivity).
  intros hostname c. discriminate.
Qed.

(** C8. In a page that has the theme toggle, startup applies the theme
    stored under ['theme'] and applies ['light'] when none (or the empty
    string) is stored; a click on the toggle applies the other theme of
    light and dark and writes it under ['theme'], and the next startup
    applies that theme again. *)
Theorem theme_persists_and_defaults_to_light (ls : Storage) (dom : App.DOM) :
  App.themeToggle dom = true ->
  (forall s : string, ls !! "theme" = Some s -> s <> EmptyString ->
     App.data_theme (App.bindEvents ls dom) = Some s) /\
  (ls !! "theme" = None -> App.data_theme (App.bindEvents ls dom) = Some "light") /\
  (ls !! "theme" = Some EmptyString ->
     App.data_theme (App.bindEvents ls dom) = Some "light") /\
  exists newTheme : string,
    newTheme = (if String.eqb (App.or_light (App.data_theme dom)) "dark"
                then "light" else "dark") /\
    App.data_theme (snd (App.themeToggle_click (ls, dom))) = Some newTheme /\
    fst (App.themeToggle_click (ls, dom)) !! "theme" = Some newTheme /\
    forall dom2 : App.DOM, App.themeToggle dom2 = true ->
      App.data_theme (App.bindEvents (fst (App.themeToggle_click (ls, dom))) dom2)
        = Some newTheme.
Proof.
  intros Ht. unfold App.bindEvents, App.themeToggle_click. rewrite Ht.
  cbn [fst snd App.data_theme].
  split; [|split; [|split]].
  - intros s Hs Hne. rewrite Hs. unfold App.or_light.
    destruct (String.eqb_spec s EmptyString); [contradiction | reflexivity].
  - intros Hs. rewrite Hs. reflexivity.
  - intros Hs. rewrite Hs. reflexivity.
  - eexists. split; [reflexivity|]. split; [reflexivity|].
    unfold setItem. rewrite lookup_insert_eq. split; [reflexivity|].
    intros dom2 Ht2. rewrite Ht2. cbn [App.data_theme]. unfold App.or_light at 1.
    destruct (String.eqb (App.or_light (App.data_theme dom)) "dark"); reflexivity.
Qed.

(** ** The model of JSON reads back what it writes *)

Lemma JSValue_ind' (P : JSValue -> Prop) :
  P JUndefined -> P JNull -> (forall b, P (JBool b)) -> (forall n, P (JNum n)) ->
  (forall s, P (JStr s)) ->
  (forall l, Forall P l -> P (JArr l)) ->
  (forall ps, Forall (fun kv => P (snd kv)) ps -> P (JObj ps)) ->
  forall v, P v.
Proof.
  intros Hu Hn Hb Hz Hs Ha Ho. fix IH 1.
  intros [ | | b | n | s | l | ps];
    [exact Hu | exact Hn | apply Hb | apply Hz | apply Hs | | ].
  - apply Ha. revert l. fix IHl 1. intros [|x l]; constructor; [apply IH | apply IHl].
  - apply Ho. revert ps. fix IHl 1. intros [|[k x] ps]; constructor; [apply IH | apply IHl].
Qed.

Lemma app_cons_s (x : ascii) (a b : string) : String x a +:+ b = String x (a +:+ b).
Proof. reflexivity. Qed.

Lemma app_nil_l_s (b : string) : EmptyString +:+ b = b.
Proof. reflexivity. Qed.

Lemma app_assoc_s (a b c : string) : (a +:+ b) +:+ c = a +:+ (b +:+ c).
Proof.
  induction a as [|x a IH]; [reflexivity|].
  rewrite !app_cons_s. now rewrite IH.
Qed.

Lemma app_nil_r_s (a : string) : a +:+ EmptyString = a.
Proof.
  induction a as [|x a IH]; [reflexivity|].
  rewrite app_cons_s. now rewrite IH.
Qed.

Lemma length_app_s (a b : string) :
  String.length (a +:+ b) = (String.length a + String.length b)%nat.
Proof.
  induction a as [|x a IH]; [reflexivity|].
  rewrite app_cons_s. cbn [String.length]. now rewrite IH.
Qed.

(** *** String literals *)

Lemma parse_chars_escape_char (c : ascii) (x : string) :
  JSON.parse_chars (JSON.escape_char c +:+ x) = JSON.cons_char c (JSON.parse_chars x).
Proof.
  destruct c as [[] [] [] [] [] [] [] []]; reflexivity.
Qed.

Lemma parse_chars_escape (s rest : string) :
  JSON.parse_chars (JSON.escape s +:+ String dquote rest) = Some (s, rest).
Proof.
  induction s as [|c s IH]; [reflexivity|].
  cbn [JSON.escape]. rewrite app_assoc_s, parse_chars_escape_char, IH. reflexivity.
Qed.

Lemma quote_app (s rest : string) :
  JSON.quote s +:+ rest = String dquote (JSON.escape s +:+ String dquote rest).
Proof. unfold JSON.quote. now rewrite app_cons_s, app_assoc_s. Qed.

(** *** Numbers *)

Lemma all_digits_string_of_uint (d : Decimal.uint) :
  JSON.all_digits (NilEmpty.string_of_uint d) = true.
Proof. induction d; cbn; auto. Qed.

Lemma ends_value_spec (rest : string) :
  JSON.ends_value rest = true ->
  JSON.starts_fraction rest = false /\ JSON.skip_ws rest = rest /\
  match rest with
  | EmptyString => True
  | String c _ => JSON.is_digit c = false
  end.
Proof.
  destruct rest as [|c r]; [now intros _|].
  unfold JSON.ends_value. rewrite !orb_true_iff, !Ascii.eqb_eq.
  intros [[-> | ->] | ->]; repeat split; reflexivity.
Qed.

Lemma lex_digits_app (d rest : string) :
  JSON.all_digits d = true ->
  match rest with
  | EmptyString => True
  | String c _ => JSON.is_digit c = false
  end ->
  JSON.lex_digits (d +:+ rest) = (d, rest).
Proof.
  intros Hd Hr. induction d as [|c d IH].
  - rewrite app_nil_l_s. destruct rest as [|c r]; [reflexivity|].
    cbn [JSON.lex_digits]. now rewrite Hr.
  - cbn [JSON.all_digits] in Hd. apply andb_true_iff in Hd as [Hc Hd].
    rewrite app_cons_s. cbn [JSON.lex_digits]. rewrite Hc, (IH Hd). reflexivity.
Qed.

Lemma unorm_to_uint (n : N) : Decimal.unorm (N.to_uint n) = N.to_uint n.
Proof.
  rewrite <- DecimalN.Unsigned.to_of. now rewrite DecimalN.Unsigned.of_to.
Qed.

Lemma N_toString_head (n : N) :
  exists c t, N_toString n = String c t /\ JSON.is_digit c = true.
Proof.
  unfold N_toString.
  assert (Hnn : N.to_uint n <> Decimal.Nil).
  { destruct n as [|p]; [discriminate|]. apply DecimalPos.Unsigned.to_uint_nonnil. }
  destruct (N.to_uint n); [contradiction | ..]; do 2 eexists; split; reflexivity.
Qed.

Lemma parse_nat_N_toString (n : N) (rest : string) :
  JSON.ends_value rest = true ->
  JSON.parse_nat (N_toString n +:+ rest) = Some (n, rest).
Proof.
  intros Hr. apply ends_value_spec in Hr as (Hf & _ & Hd).
  unfold JSON.parse_nat, N_toString.
  rewrite lex_digits_app by (auto using all_digits_string_of_uint).
  rewrite NilEmpty.usu, unorm_to_uint.
  destruct (Decimal.uint_eq_dec (N.to_uint n) (N.to_uint n)); [|contradiction].
  rewrite Hf. now rewrite DecimalN.Unsigned.of_to.
Qed.

Lemma is_digit_spec (c : ascii) :
  JSON.is_digit c = true ->
  Ascii.eqb c "n" = false /\ Ascii.eqb c "t" = false /\ Ascii.eqb c "f" = false /\
  Ascii.eqb c dquote = false /\ Ascii.eqb c "[" = false /\ Ascii.eqb c "{" = false /\
  Ascii.eqb c "-" = false.
Proof.
  destruct c as [[] [] [] [] [] [] [] []]; intros E;
    solve [discriminate E | repeat split; reflexivity].
Qed.

Lemma value_start_spec (c : ascii) :
  JSON.value_start c = true ->
  JSON.is_ws c = false /\ Ascii.eqb c "]" = false /\ Ascii.eqb c "}" = false.
Proof.
  destruct c as [[] [] [] [] [] [] [] []]; intros E;
    solve [discriminate E | repeat split; reflexivity].
Qed.

Lemma parse_value_number (z : Z) (rest : string) (fuel : nat) :
  JSON.ends_value rest = true ->
  JSON.parse_value (S fuel) (Number_toString z +:+ rest) = Some (JNum z, rest).
Proof.
  intros Hr. unfold Number_toString. destruct (Z.ltb_spec z 0) as [Hneg|Hpos].
  - rewrite app_cons_s. cbn -[JSON.parse_nat].
    rewrite parse_nat_N_toString by assumption.
    do 3 f_equal. lia.
  - destruct (N_toString_head (Z.to_N z)) as (c & t & E & Hc).
    pose proof (parse_nat_N_toString (Z.to_N z) rest Hr) as Hp.
    rewrite E in *. rewrite app_cons_s in *.
    apply is_digit_spec in Hc as (E1 & E2 & E3 & E4 & E5 & E6 & E7).
    cbn [JSON.parse_value]. rewrite E1, E2, E3, E4, E5, E6, E7, Hp.
    do 3 f_equal. lia.
Qed.

(** *** Values *)

Lemma stringify_arr_app (l : list JSValue) (rest : string) :
  JSON.stringify (JArr l) +:+ rest =
  String "[" (String.concat "," (map JSON.stringify l) +:+ String "]" rest).
Proof.
  change (JSON.stringify (JArr l))
    with ("[" +:+ String.concat "," (map JSON.stringify l) +:+ "]").
  rewrite app_cons_s, app_nil_l_s, app_cons_s, app_assoc_s. reflexivity.
Qed.

Lemma stringify_obj_app (ps : list (string * JSValue)) (rest : string) :
  JSON.stringify (JObj ps) +:+ rest =
  String "{" (String.concat "," (JSON.members_text ps) +:+ String "}" rest).
Proof.
  change (JSON.stringify (JObj ps))
    with ("{" +:+ String.concat "," (JSON.members_text ps) +:+ "}").
  rewrite app_cons_s, app_nil_l_s, app_cons_s, app_assoc_s. reflexivity.
Qed.

Lemma concat_cons_head (x : string) (xs : list string) :
  String.concat "," (x :: xs) =
  x +:+ match xs with
        | [] => EmptyString
        | _ :: _ => String "," (String.concat "," xs)
        end.
Proof. destruct xs; [now rewrite app_nil_r_s | reflexivity]. Qed.

Lemma stringify_head (v : JSValue) :
  exists c t, JSON.stringify v = String c t /\ JSON.value_start c = true.
Proof.
  destruct v as [ | | [|] | z | s | l | ps]; try (do 2 eexists; split; reflexivity).
  cbn [JSON.stringify]. unfold Number_toString. destruct (z <? 0).
  - do 2 eexists; split; reflexivity.
  - destruct (N_toString_head (Z.to_N z)) as (c & t & E & Hc).
    exists c, t. split; [exact E|]. unfold JSON.value_start. now rewrite Hc.
Qed.

Lemma skip_ws_stringify (v : JSValue) (x : string) :
  JSON.skip_ws (JSON.stringify v +:+ x) = JSON.stringify v +:+ x.
Proof.
  destruct (stringify_head v) as (c & t & E & Hc). rewrite E, app_cons_s.
  apply value_start_spec in Hc as (Hw & _). cbn [JSON.skip_ws]. now rewrite Hw.
Qed.

Lemma size_arr_cons (v : JSValue) (l : list JSValue) :
  size (JArr (v :: l)) = S (size v + size (JArr l)).
Proof. cbn [size]. lia. Qed.

Lemma size_obj_cons (k : string) (v : JSValue) (ps : list (string * JSValue)) :
  size (JObj ((k, v) :: ps)) = S (size v + size (JObj ps)).
Proof. cbn [size]. lia. Qed.

Lemma size_pos (v : JSValue) : (1 <= size v)%nat.
Proof. destruct v; cbn [size]; lia. Qed.

Lemma safe_obj_cons (k : string) (v : JSValue) (ps : list (string * JSValue)) :
  JSON_safe (JObj ((k, v) :: ps)) ->
  (k ∉ map fst ps) /\ JSON_safe v /\ JSON_safe (JObj ps).
Proof.
  cbn [JSON_safe map fst]. intros (Hnd & Hv & Hps).
  apply NoDup_cons in Hnd as (Hk & Hnd). auto.
Qed.

Lemma members_text_cons (k : string) (v : JSValue) (ps : list (string * JSValue)) :
  JSON_safe v ->
  JSON.members_text ((k, v) :: ps) =
  (JSON.quote k +:+ ":" +:+ JSON.stringify v) :: JSON.members_text ps.
Proof. destruct v; [contradiction | reflexivity ..]. Qed.

Lemma obj_put_fresh (k : string) (v : JSValue) (acc : list (string * JSValue)) :
  k ∉ map fst acc -> JSON.obj_put k v acc = acc ++ [(k, v)].
Proof.
  induction acc as [|[k' v'] acc IH]; [reflexivity|].
  cbn [map fst JSON.obj_put]. intros Hk. apply not_elem_of_cons in Hk as (Hne & Hk).
  destruct (String.eqb_spec k k') as [->|_]; [contradiction|].
  rewrite IH by exact Hk. reflexivity.
Qed.

Lemma fold_obj_put_nodup (ms acc : list (string * JSValue)) :
  NoDup (map fst acc ++ map fst ms) ->
  fold_left (fun a kv => JSON.obj_put (fst kv) (snd kv) a) ms acc = acc ++ ms.
Proof.
  revert acc. induction ms as [|[k v] ms IH]; intros acc Hnd.
  - now rewrite app_nil_r.
  - cbn [fold_left fst snd]. cbn [map fst] in Hnd.
    rewrite obj_put_fresh.
    + rewrite IH.
      * now rewrite <- List.app_assoc.
      * rewrite List.map_app, <- List.app_assoc. exact Hnd.
    + apply NoDup_app in Hnd as (_ & Hdis & _). intros Hin.
      apply (Hdis k Hin). constructor.
Qed.

Lemma obj_of_members_nodup (ms : list (string * JSValue)) :
  NoDup (map fst ms) -> JSON.obj_of_members ms = ms.
Proof. intros Hnd. unfold JSON.obj_of_members. now rewrite fold_obj_put_nodup. Qed.

Lemma parse_elems_stringify (l : list JSValue) :
  Forall reads_back l ->
  forall v : JSValue,
    reads_back v -> JSON_safe v -> JSON_safe (JArr l) ->
    forall (rest : string) (fuel : nat),
      (size (JArr (v :: l)) <= S fuel)%nat ->
      JSON.parse_elems fuel
        (String.concat "," (map JSON.stringify (v :: l)) +:+ String "]" rest)
      = Some (v :: l, rest).
Proof.
  induction 1 as [|v' l Hv' Hl IH]; intros v Hv Sv Sl rest fuel Hfuel;
    rewrite size_arr_cons in Hfuel; pose proof (size_pos v) as Hv1;
    (destruct fuel as [|f]; [pose proof (size_pos v); cbn [size] in Hfuel; lia|]);
    cbn [map]; rewrite concat_cons_head, app_assoc_s; cbn [JSON.parse_elems].
  - rewrite app_nil_l_s.
    rewrite (Hv Sv (String "]" rest) f eq_refl) by (cbn [size] in Hfuel; lia).
    reflexivity.
  - pose proof (size_pos (JArr (v' :: l))) as Hl2.
    rewrite app_cons_s.
    rewrite (Hv Sv (String "," _) f eq_refl) by lia.
    cbn [JSON.skip_ws JSON.is_ws Ascii.eqb Bool.eqb].
    change (JSON.stringify v' :: map JSON.stringify l)
      with (map JSON.stringify (v' :: l)).
    cbn [map]. rewrite concat_cons_head, app_assoc_s, skip_ws_stringify.
    rewrite <- app_assoc_s, <- concat_cons_head.
    destruct Sl as [Sv' Sl'].
    change (JSON.stringify v' :: map JSON.stringify l)
      with (map JSON.stringify (v' :: l)).
    rewrite (IH v' Hv' Sv' Sl' rest f) by lia.
    reflexivity.
Qed.

Lemma members_head (k : string) (v : JSValue) (ps : list (string * JSValue)) (x : string) :
  JSON_safe v ->
  exists t, String.concat "," (JSON.members_text ((k, v) :: ps)) +:+ x = String dquote t.
Proof.
  intros Sv. rewrite members_text_cons, concat_cons_head by exact Sv.
  rewrite !app_assoc_s, quote_app. eexists. reflexivity.
Qed.

Lemma parse_members_stringify (ps : list (string * JSValue)) :
  Forall (fun kv => reads_back (snd kv)) ps ->
  forall (k : string) (v : JSValue),
    reads_back v -> JSON_safe v -> JSON_safe (JObj ps) ->
    forall (rest : string) (fuel : nat),
      (size (JObj ((k, v) :: ps)) <= S fuel)%nat ->
      JSON.parse_members fuel
        (String.concat "," (JSON.members_text ((k, v) :: ps)) +:+ String "}" rest)
      = Some ((k, v) :: ps, rest).
Proof.
  induction 1 as [|[k' v'] ps Hv' Hps IH]; intros k v Hv Sv Sps rest fuel Hfuel;
    rewrite size_obj_cons in Hfuel; pose proof (size_pos v) as Hv1;
    (destruct fuel as [|f]; [cbn [size] in Hfuel; lia|]);
    rewrite members_text_cons, concat_cons_head by exact Sv;
    rewrite !app_assoc_s, quote_app; cbn [JSON.parse_members];
    rewrite Ascii.eqb_refl, parse_chars_escape, app_cons_s, app_nil_l_s;
    cbn [JSON.skip_ws JSON.is_ws Ascii.eqb Bool.eqb];
    rewrite skip_ws_stringify.
  - cbn [JSON.members_text]. rewrite app_nil_l_s.
    rewrite (Hv Sv (String "}" rest) f eq_refl) by (cbn [size] in Hfuel; lia).
    reflexivity.
  - pose proof (size_pos (JObj ((k', v') :: ps))) as Hl2.
    apply safe_obj_cons in Sps as (_ & Sv' & Sps').
    assert (Hm : JSON.members_text ((k', v') :: ps) =
                 (JSON.quote k' +:+ ":" +:+ JSON.stringify v') :: JSON.members_text ps)
      by (now apply members_text_cons).
    rewrite Hm at 1. rewrite app_cons_s.
    rewrite (Hv Sv (String "," _) f eq_refl) by lia.
    cbn [JSON.skip_ws JSON.is_ws Ascii.eqb Bool.eqb].
    destruct (members_head k' v' ps (String "}" rest) Sv') as [t Et].
    rewrite Et. cbn [JSON.skip_ws JSON.is_ws dquote]. rewrite <- Et.
    cbn [snd] in Hv'.
    rewrite (IH k' v' Hv' Sv' Sps' rest f) by lia.
    reflexivity.
Qed.

Lemma parse_value_stringify (v : JSValue) : reads_back v.
Proof.
  induction v as [ | | b | z | s | l IH | ps IH] using JSValue_ind';
    intros Sv rest fuel Hrest Hfuel;
    (destruct fuel as [|f]; [cbn [size] in Hfuel; lia|]).
  - contradiction.
  - reflexivity.
  - destruct b; reflexivity.
  - now apply parse_value_number.
  - cbn [JSON.stringify]. rewrite quote_app. cbn [JSON.parse_value].
    change (Ascii.eqb dquote "n") with false. change (Ascii.eqb dquote "t") with false.
    change (Ascii.eqb dquote "f") with false. rewrite Ascii.eqb_refl.
    now rewrite parse_chars_escape.
  - rewrite stringify_arr_app. cbn [JSON.parse_value Ascii.eqb Bool.eqb].
    change (Ascii.eqb "[" dquote) with false. cbv iota.
    destruct l as [|v l].
    + reflexivity.
    + apply Forall_cons in IH as [Hv Hl]. destruct Sv as [Sv Sl].
      pose proof (parse_elems_stringify l Hl v Hv Sv Sl rest f Hfuel) as Hp.
      cbn [map] in Hp |- *. rewrite concat_cons_head, app_assoc_s in Hp |- *.
      rewrite skip_ws_stringify.
      destruct (stringify_head v) as (c & t & E & Hc).
      rewrite E, app_cons_s in Hp |- *.
      apply value_start_spec in Hc as (_ & Hc & _). rewrite Hc, Hp. reflexivity.
  - rewrite stringify_obj_app. cbn [JSON.parse_value Ascii.eqb Bool.eqb].
    change (Ascii.eqb "{" dquote) with false. cbv iota.
    destruct ps as [|[k v] ps].
    + reflexivity.
    + apply Forall_cons in IH as [Hv Hl].
      pose proof Sv as [Hnd _].
      apply safe_obj_cons in Sv as (_ & Sv & Sps).
      pose proof (parse_members_stringify ps Hl k v Hv Sv Sps rest f Hfuel) as Hp.
      destruct (members_head k v ps (String "}" rest) Sv) as [t Et].
      rewrite Et in Hp |- *. cbn [JSON.skip_ws JSON.is_ws dquote].
      change (Ascii.eqb dquote "}") with false. cbv iota.
      change (String "034" t) with (String dquote t).
      rewrite Hp, obj_of_members_nodup by exact Hnd. reflexivity.
Qed.

Lemma length_concat_elems (l : list JSValue) :
  Forall (fun v => JSON_safe v -> (size v <= String.length (JSON.stringify v))%nat) l ->
  JSON_safe (JArr l) ->
  (size (JArr l) <= 2 + String.length (String.concat "," (map JSON.stringify l)))%nat.
Proof.
  induction 1 as [|v l Hv Hl IH]; intros Sl; [cbn; lia|].
  destruct Sl as [Sv Sl]. specialize (Hv Sv). specialize (IH Sl).
  rewrite size_arr_cons. cbn [map]. rewrite concat_cons_head, length_app_s.
  destruct l as [|v' l].
  - cbn [size String.length map]. lia.
  - cbn [String.length map]. cbn [map] in IH. lia.
Qed.

Lemma length_concat_members (ps : list (string * JSValue)) :
  Forall (fun kv => JSON_safe (snd kv) ->
            (size (snd kv) <= String.length (JSON.stringify (snd kv)))%nat) ps ->
  JSON_safe (JObj ps) ->
  (size (JObj ps) <= 2 + String.length (String.concat "," (JSON.members_text ps)))%nat.
Proof.
  induction 1 as [|[k v] ps Hv Hps IH]; intros Sps; [cbn; lia|].
  apply safe_obj_cons in Sps as (_ & Sv & Sps). cbn [snd] in Hv.
  specialize (Hv Sv). specialize (IH Sps).
  rewrite size_obj_cons, members_text_cons, concat_cons_head by exact Sv.
  rewrite !length_app_s.
  destruct ps as [|[k' v'] ps].
  - cbn [size String.length JSON.members_text]. lia.
  - apply safe_obj_cons in Sps as (_ & Sv' & _).
    rewrite members_text_cons in IH |- * by exact Sv'.
    cbn [String.length]. lia.
Qed.

Lemma size_le_length (v : JSValue) :
  JSON_safe v -> (size v <= String.length (JSON.stringify v))%nat.
Proof.
  induction v as [ | | b | z | s | l IH | ps IH] using JSValue_ind'; intros Sv.
  - contradiction.
  - cbn. lia.
  - destruct b; cbn; lia.
  - destruct (stringify_head (JNum z)) as (c & t & E & _). rewrite E. cbn. lia.
  - cbn. lia.
  - pose proof (length_concat_elems l IH Sv) as Hl.
    pose proof (stringify_arr_app l EmptyString) as E. rewrite app_nil_r_s in E.
    rewrite E. cbn [String.length]. rewrite length_app_s. cbn [String.length]. lia.
  - pose proof (length_concat_members ps IH Sv) as Hl.
    pose proof (stringify_obj_app ps EmptyString) as E. rewrite app_nil_r_s in E.
    rewrite E. cbn [String.length]. rewrite length_app_s. cbn [String.length]. lia.
Qed.

(** The model reads back every value that survives serialisation. *)
Lemma JSON_model_roundtrip : @JSON_roundtrip JSON_model.
Proof.
  intros v Sv. cbn [JSON_parse JSON_stringify JSON_model]. unfold JSON.parse.
  pose proof (skip_ws_stringify v EmptyString) as Hs. rewrite app_nil_r_s in Hs.
  pose proof (parse_value_stringify v Sv EmptyString
                (String.length (JSON.stringify v)) eq_refl (size_le_length v Sv)) as Hp.
  rewrite app_nil_r_s in Hp. rewrite Hs, Hp. reflexivity.
Qed.

(** * The statements at sample inputs *)

Example toISOString_sample :
  Date.toISOString Sample.now = "2025-11-01T18:57:36.789Z" /\
  split_T_0 (Date.toISOString Sample.now) = "2025-11-01".
Proof. split; vm_compute; reflexivity. Qed.

Example login_admin_sample :
  Server.res_status (Server.requestHandler Sample.now (Server.login_request Sample.admin_body))
    = 200 /\
  Server.res_status (Server.requestHandler Sample.now (Server.login_request Sample.wrong_body))
    = 400 /\
  Server.requestHandler Sample.now (Server.login_request Sample.wrong_body)
    = Server.json_response 400 Server.login_failure.
Proof. repeat split; vm_compute; reflexivity. Qed.

Example session_sample :
  exists p : JSValue,
    DemoAPI.posts (fst (DemoAPI.run Sample.session (Sample.guest, Sample.stored)))
      = JArr (p :: List.filter (fun q => negb (strict_eq (DemoAPI.post_id q) (JNum 2)))
                     DEMO_MODE.mockPosts_elements) /\
    get_prop p "title" = Some (JStr "Hello") /\
    get_prop p "excerpt" = Some (JStr "First words...") /\
    get_prop p "date" = Some (JStr "2025-11-01").
Proof. eexists. repeat split; vm_compute; reflexivity. Qed.

(** C1 at the credentials of the README. *)
Lemma login_success_iff_admin_credentials_witness :
  (exists (v : JSValue),
     Server.res_body (Server.requestHandler Sample.now (Server.login_request Sample.admin_body))
       = JSON.stringify v /\
     get_prop v "success" = Some (JBool true)) /\
  (exists (v : JSValue),
     snd (DemoAPI.login Sample.now (JStr "admin") (JStr "admin123") (Sample.guest, Sample.stored))
       = Resolved v /\
     get_prop v "success" = Some (JBool true)).
Proof.
  destruct (@login_success_iff_admin_credentials JSON_model) as [Hserver Hdemo].
  split.
  - destruct (Hserver Sample.now Sample.admin_body) as (v & b & Hbody & Hsucc & Hiff).
    exists v. split; [exact Hbody|].
    replace b with true in Hsucc; [exact Hsucc|].
    symmetry. apply Hiff. eexists. split; [vm_compute; reflexivity|].
    split; reflexivity.
  - destruct (Hdemo Sample.now (JStr "admin") (JStr "admin123") (Sample.guest, Sample.stored))
      as (v & b & Hres & Hsucc & Hiff).
    exists v. split; [exact Hres|].
    replace b with true in Hsucc; [exact Hsucc|].
    symmetry. apply Hiff. split; reflexivity.
Defined.

(** C2, as stated, fails: the replies to two invocations one
    millisecond apart differ. *)
Lemma posts_replies_differ_across_time :
  Clocked.requestHandler (H := JSON_model) 0 0 (Server.posts_request EmptyString) <>
  Clocked.requestHandler (H := JSON_model) 1 1 (Server.posts_request EmptyString).
Proof.
  intros E. apply (f_equal Server.res_body) in E.
  apply String.eqb_eq in E. vm_compute in E. discriminate E.
Qed.

(** When the clock moves between the two readings, the two dates are
    not 24 hours apart. *)
Example posts_dates_across_a_tick :
  exists p q : JSValue,
    get_prop (Clocked.posts_payload 0 1) "posts" = Some (JArr [p; q]) /\
    get_prop p "date" = Some (JStr "1970-01-01T00:00:00.000Z") /\
    get_prop q "date" = Some (JStr "1969-12-31T00:00:00.001Z").
Proof. do 2 eexists. repeat split; vm_compute; reflexivity. Qed.

(** C2, amended, at two invocations that make the same two readings,
    the clock moving by three milliseconds between them. *)
Lemma posts_replies_agree_up_to_date_witness :
  Clocked.requestHandler (H := JSON_model) Sample.now (Sample.now + 3)
    (Server.posts_request EmptyString) =
  Clocked.requestHandler (H := JSON_model) Sample.now (Sample.now + 3)
    (Server.posts_request "ignored").
Proof.
  destruct (@posts_replies_agree_up_to_date JSON_model Sample.now (Sample.now + 3)
              Sample.now (Sample.now + 3) EmptyString "ignored")
    as (p1 & q1 & p2 & q2 & _ & _ & _ & _ & _ & _ & _ & _ & _ & _ & _ & Heq).
  exact (Heq eq_refl eq_refl).
Defined.

(** C6, as stated, fails: an [OPTIONS] request is neither of the two
    routes, and its reply is not the service descriptor. *)
Lemma options_request_gets_no_descriptor :
  ~ (Server.req_method Sample.options_request = "POST" /\
     Server.req_url Sample.options_request = "/api/auth/login") /\
  ~ (Server.req_method Sample.options_request = "GET" /\
     Server.req_url Sample.options_request = "/api/posts") /\
  Server.res_body (Server.requestHandler (H := JSON_model) 0 Sample.options_request)
    <> JSON.stringify Server.descriptor.
Proof.
  split; [|split].
  - intros [E _]. discriminate E.
  - intros [E _]. discriminate E.
  - intros E. vm_compute in E. discriminate E.
Qed.

(** C6, amended, at a [GET] of a path the server does not serve. *)
Lemma unmatched_request_gets_descriptor_witness :
  Server.res_status (Server.requestHandler (H := JSON_model) 0 Sample.unknown_request) = 200 /\
  Server.res_body (Server.requestHandler (H := JSON_model) 0 Sample.unknown_request) =
    JSON.stringify Server.descriptor.
Proof.
  destruct (@unmatched_request_gets_descriptor JSON_model 0 Sample.unknown_request)
    as [Hother _].
  apply Hother.
  - discriminate.
  - discriminate.
  - intros [E _]. discriminate E.
  - intros [_ E]. discriminate E.
Defined.

(** C7 at a body with unquoted property names. *)
Lemma malformed_login_body_gets_400_witness :
  JSON.parse "{username: admin" = None /\
  Server.res_status
    (Server.requestHandler (H := JSON_model) 0 (Server.login_request "{username: admin")) = 400.
Proof.
  split; [vm_compute; reflexivity|].
  apply (@malformed_login_body_gets_400 JSON_model 0
           (Server.login_request "{username: admin")); reflexivity.
Defined.

Lemma mockPosts_safe : JSON_safe DEMO_MODE.mockPosts.
Proof.
  vm_compute. repeat split; apply (bool_decide_unpack _); vm_compute; reflexivity.
Qed.

Lemma mockPosts_readable : Forall DemoAPI.readable DEMO_MODE.mockPosts_elements.
Proof. repeat (constructor; [split; discriminate|]). constructor. Qed.

(** On a first visit, and after any calls, the posts are an array of
    readable JSON values. *)
Lemma first_visit_records (cs : list DemoAPI.Call) :
  DemoAPI.records (DemoAPI.run (H := JSON_model) cs (Sample.guest, Sample.stored)).
Proof.
  apply run_records. exists DEMO_MODE.mockPosts_elements.
  split; [reflexivity|]. split; [apply mockPosts_safe | apply mockPosts_readable].
Qed.

(** C3 at the state a login on a first visit leaves. *)
Lemma createPost_prepends_and_persists_witness :
  let post := DemoAPI.newPost Sample.now "Hello" "First words" ["intro"] in
  DemoAPI.isLoggedIn Sample.admin = true /\
  DemoAPI.posts Sample.admin = JArr DEMO_MODE.mockPosts_elements /\
  exists (this' : DemoAPI.instance) (ls' : Storage),
    fst (DemoAPI.createPost (H := JSON_model) Sample.now "Hello" "First words"
           (Some ["intro"]) (Sample.admin, Sample.stored)) = (this', ls') /\
    DemoAPI.posts this' = JArr (post :: DEMO_MODE.mockPosts_elements) /\
    exists (this2 : DemoAPI.instance) (ls2 : Storage),
      DemoAPI.new (H := JSON_model) ls' = Some (this2, ls2) /\
      DemoAPI.posts this2 = JArr (post :: DEMO_MODE.mockPosts_elements).
Proof.
  intros post. split; [reflexivity|]. split; [reflexivity|].
  destruct (@createPost_prepends_and_persists JSON_model Sample.now "Hello" "First words"
              (Some ["intro"]) Sample.admin Sample.stored DEMO_MODE.mockPosts_elements
              JSON_model_roundtrip eq_refl eq_refl mockPosts_safe)
    as (this' & ls' & Hcall & Hposts & _ & _ & _ & _ & Hnew).
  exists this', ls'. split; [now rewrite Hcall|]. split; [exact Hposts | exact Hnew].
Defined.

(** C4 at the second seed post. *)
Lemma deletePost_removes_matching_records_witness :
  DemoAPI.isLoggedIn Sample.admin = true /\
  DemoAPI.posts Sample.admin = JArr DEMO_MODE.mockPosts_elements /\
  exists (this' : DemoAPI.instance) (ls' : Storage) (l' : list JSValue),
    fst (DemoAPI.deletePost (H := JSON_model) (JNum 2) (Sample.admin, Sample.stored))
      = (this', ls') /\
    DemoAPI.posts this' = JArr l' /\
    map DemoAPI.post_id l' = [JNum 1; JNum 3] /\
    ls' !! "demo_posts" = Some (JSON.stringify (JArr l')).
Proof.
  split; [reflexivity|]. split; [reflexivity|].
  destruct (@deletePost_removes_matching_records JSON_model (JNum 2) Sample.admin
              Sample.stored DEMO_MODE.mockPosts_elements eq_refl eq_refl mockPosts_readable)
    as (this' & ls' & l' & Hcall & Hposts & _ & Hl' & _ & _ & _ & Hst).
  exists this', ls', l'. split; [now rewrite Hcall|]. split; [exact Hposts|].
  split; [|exact Hst].
  rewrite Hl'. vm_compute. reflexivity.
Defined.

(** C9 at a first visit. *)
Lemma unauthenticated_mutation_is_refused_witness :
  DemoAPI.isLoggedIn Sample.guest = false /\
  DemoAPI.createPost (H := JSON_model) Sample.now "Hello" "First words" None
    (Sample.guest, Sample.stored)
  = (Sample.guest, Sample.stored, Resolved DemoAPI.not_authenticated) /\
  DemoAPI.deletePost (H := JSON_model) (JNum 1) (Sample.guest, Sample.stored)
  = (Sample.guest, Sample.stored, Resolved DemoAPI.not_authenticated).
Proof.
  split; [reflexivity|].
  destruct (@unauthenticated_mutation_is_refused JSON_model Sample.guest Sample.stored eq_refl)
    as (Hcreate & Hdelete & _).
  split; [apply Hcreate | apply Hdelete].
Defined.

(** C10 at a first visit followed by a session of calls. *)
Lemma stored_posts_stay_in_sync_witness :
  DemoAPI.new (H := JSON_model) ∅ = Some (Sample.guest, Sample.stored) /\
  snd (DemoAPI.run (H := JSON_model) Sample.session (Sample.guest, Sample.stored))
    !! "demo_posts" =
  Some (JSON.stringify
          (DemoAPI.posts
             (fst (DemoAPI.run (H := JSON_model) Sample.session
                     (Sample.guest, Sample.stored))))).
Proof.
  assert (Hnew : DemoAPI.new (H := JSON_model) ∅ = Some (Sample.guest, Sample.stored))
    by reflexivity.
  split; [exact Hnew|].
  exact (proj2 (@stored_posts_stay_in_sync JSON_model ∅ Sample.stored Sample.guest
                  Sample.session Hnew)).
Defined.

(** C8 at an empty storage, at a stored dark theme, and across a click
    and a reload. *)
Lemma theme_persists_and_defaults_to_light_witness :
  App.themeToggle Sample.page = true /\
  App.data_theme (App.bindEvents ∅ Sample.page) = Some "light" /\
  App.data_theme (App.bindEvents Sample.dark_store Sample.page) = Some "dark" /\
  App.data_theme
    (App.bindEvents (fst (App.themeToggle_click (∅, App.bindEvents ∅ Sample.page)))
       Sample.page) = Some "dark".
Proof.
  split; [reflexivity|].
  destruct (theme_persists_and_defaults_to_light ∅ Sample.page eq_refl)
    as (_ & Hnone & _ & _).
  destruct (theme_persists_and_defaults_to_light Sample.dark_store Sample.page eq_refl)
    as (Hsome & _ & _ & _).
  destruct (theme_persists_and_defaults_to_light ∅ (App.bindEvents ∅ Sample.page) eq_refl)
    as (_ & _ & _ & newTheme & Hnew & _ & _ & Hreload).
  split; [apply Hnone; reflexivity|].
  split; [apply (Hsome "dark"); [reflexivity | discriminate]|].
  rewrite (Hreload Sample.page eq_refl). rewrite Hnew. reflexivity.
Defined.

(** * Further properties of the code *)

(** ** The API client *)

(** X1. A token given to [setToken] is the token of an [APIClient]
    constructed afterwards (a reload) when it is a non-empty string;
    after [setToken] of [null] or of the empty string, and after
    [clearToken], a reload finds no token, although after
    [setToken('')] the object itself still answers the empty string; no
    other key of the storage is touched. *)
Theorem token_survives_reload (w : APIClient.instance * Storage) :
  (forall s : string, s <> EmptyString ->
     APIClient.getToken (fst (APIClient.setToken (Some s) w)) = Some s /\
     APIClient.getToken (APIClient.new (snd (APIClient.setToken (Some s) w))) = Some s) /\
  APIClient.getToken (APIClient.new (snd (APIClient.setToken None w))) = None /\
  APIClient.getToken (fst (APIClient.setToken (Some EmptyString) w)) = Some EmptyString /\
  APIClient.getToken (APIClient.new (snd (APIClient.setToken (Some EmptyString) w))) = None /\
  APIClient.getToken (fst (APIClient.clearToken w)) = None /\
  APIClient.getToken (APIClient.new (snd (APIClient.clearToken w))) = None /\
  (forall (t : option string) (k : string), k <> "authToken" ->
     snd (APIClient.setToken t w) !! k = snd w !! k /\
     snd (APIClient.clearToken w) !! k = snd w !! k).
Proof.
  destruct w as [this ls].
  unfold APIClient.setToken, APIClient.clearToken, APIClient.new, APIClient.getToken,
    setItem, removeItem.
  cbn [fst snd APIClient.token String.eqb].
  split; [|split; [|split; [|split; [|split; [|split]]]]].
  - intros s Hs. destruct (String.eqb_spec s EmptyString); [contradiction|].
    split; [reflexivity | apply lookup_insert_eq].
  - apply lookup_delete_eq.
  - reflexivity.
  - apply lookup_delete_eq.
  - reflexivity.
  - apply lookup_delete_eq.
  - intros t k Hk. split.
    + destruct t as [s|]; [destruct (String.eqb s EmptyString)|].
      * now apply lookup_delete_ne.
      * now apply lookup_insert_ne.
      * now apply lookup_delete_ne.
    + now apply lookup_delete_ne.
Qed.

(** ** The HTTP server *)

(** X2. Every reply of the server starts with the three CORS headers,
    and its status is 200 or 400; 400 is only ever the answer to a
    [POST /api/auth/login]. *)
Theorem server_reply_shape `{JSONPlatform} (now : Z) (req : Server.Request) :
  let r := Server.requestHandler now req in
  (exists rest, Server.res_headers r = Server.cors_headers ++ rest) /\
  (Server.res_status r = 200 \/ Server.res_status r = 400) /\
  (Server.res_status r = 400 ->
   Server.req_method req = "POST" /\ Server.req_url req = "/api/auth/login").
Proof.
  cbv zeta. unfold Server.requestHandler.
  destruct (String.eqb (Server.req_method req) "OPTIONS").
  { cbn. split; [exists []; reflexivity|]. split; [now left | discriminate]. }
  destruct (String.eqb_spec (Server.req_method req) "POST") as [Em|_];
    destruct (String.eqb_spec (Server.req_url req) "/api/auth/login") as [Eu|_];
    cbn [andb].
  1: { unfold Server.try_login.
       destruct (JSON_parse (Server.req_body req)) as [data|];
         [destruct (Server.credentials_match data) as [[|]|]|];
         cbn; (split; [eexists; reflexivity|]); split; auto. }
  all: destruct (String.eqb (Server.req_method req) "GET" &&
                 String.eqb (Server.req_url req) "/api/posts");
    cbn; (split; [eexists; reflexivity|]); (split; [now left | discriminate]).
Qed.

(** X3. The status of the reply to a login agrees with its [success]
    flag: it is 200 exactly when the body parses to a value with the
    literal credentials, and 400 otherwise. *)
Theorem login_status_agrees_with_credentials `{JSONPlatform} (now : Z) (body : string) :
  let r := Server.requestHandler now (Server.login_request body) in
  (Server.res_status r = 200 <->
   exists data, JSON_parse body = Some data /\
     get_prop data "username" = Some (JStr "admin") /\
     get_prop data "password" = Some (JStr "admin123")) /\
  (Server.res_status r <> 200 -> Server.res_status r = 400).
Proof.
  cbv zeta. unfold Server.requestHandler, Server.try_login. cbn.
  destruct (JSON_parse body) as [data|] eqn:Ep.
  - destruct (Server.credentials_match data) as [[|]|] eqn:Ec; cbn.
    + split; [|congruence]. split; [|reflexivity].
      intros _. exists data. split; [reflexivity|]. now apply credentials_match_true.
    + split; [|reflexivity]. split; [discriminate|].
      intros (d & Ed & Hd). inversion Ed; subst d.
      apply credentials_match_true in Hd. congruence.
    + split; [|reflexivity]. split; [discriminate|].
      intros (d & Ed & Hd). inversion Ed; subst d.
      apply credentials_match_true in Hd. congruence.
  - cbn. split; [|reflexivity]. split; [discriminate|].
    intros (d & Ed & _). discriminate.
Qed.

(** ** Deployment detection and configuration *)

(** X10. The two detections never disagree on a local page: when
    [getEnvironment] answers development, [isStaticDeployment] is false
    and the configuration has no [DEMO_MODE]; and the configuration has
    [DEMO_MODE] only on a host name that contains [netlify.app] or
    [netlify.com]. *)
Theorem development_is_not_static (hostname : string) :
  (Config.getEnvironment hostname = Config.development ->
   isStaticDeployment hostname = false /\
   Config.DEMO_MODE (Config.getConfig hostname) = None /\
   Config.API_BASE_URL (Config.getConfig hostname) = "http://127.0.0.1:9090/api") /\
  (Config.DEMO_MODE (Config.getConfig hostname) = Some true ->
   includes hostname "netlify.app" || includes hostname "netlify.com" = true).
Proof.
  unfold Config.getConfig, Config.getEnvironment. split.
  - destruct (String.eqb_spec hostname "localhost") as [->|_]; [intros _; now vm_compute|].
    destruct (String.eqb_spec hostname "127.0.0.1") as [->|_]; [intros _; now vm_compute|].
    cbn [orb]. destruct (includes hostname "netlify.app" || includes hostname "netlify.com");
      discriminate.
  - destruct (String.eqb hostname "localhost" || String.eqb hostname "127.0.0.1");
      [discriminate|].
    destruct (includes hostname "netlify.app" || includes hostname "netlify.com");
      [reflexivity | discriminate].
Qed.

(** ** The theme toggle *)

Lemma click_coherent (w : Storage * App.DOM) :
  App.themeToggle (snd w) = true ->
  App.themeToggle (snd (App.themeToggle_click w)) = true /\
  Controller.theme_coherent (App.themeToggle_click w).
Proof.
  destruct w as [ls dom]. cbn [snd]. intros Ht.
  unfold App.themeToggle_click. rewrite Ht. cbn [snd]. split; [reflexivity|].
  unfold Controller.theme_coherent. cbn [fst snd App.data_theme App.icon_className].
  exists (if String.eqb (App.or_light (App.data_theme dom)) "dark" then "light" else "dark").
  split; [destruct (String.eqb _ "dark"); auto|].
  split; [reflexivity|]. split; [unfold setItem; apply lookup_insert_eq|].
  intros cls Hc. destruct (App.icon_className dom); [|discriminate].
  cbn in Hc. inversion Hc. reflexivity.
Qed.

(** X18. In a page that has the theme toggle, after any positive number
    of clicks the applied theme is light or dark, the stored theme is
    the applied one, and the icon (when there is one) is the sun exactly
    in the dark theme. *)
Theorem clicks_keep_theme_coherent (n : nat) (w : Storage * App.DOM) :
  App.themeToggle (snd w) = true ->
  Controller.theme_coherent (Controller.clicks (S n) w).
Proof.
  revert w. induction n as [|n IH]; intros w Ht.
  - cbn [Controller.clicks]. now apply click_coherent.
  - change (Controller.clicks (S (S n)) w)
      with (Controller.clicks (S n) (App.themeToggle_click w)).
    apply IH. now apply click_coherent.
Qed.

(** X19. Two clicks bring back the theme: when the applied theme is
    light or dark, two clicks leave it applied and stored; from any
    other state the first click applies dark and the second light. *)
Theorem two_clicks_restore_theme (w : Storage * App.DOM) :
  App.themeToggle (snd w) = true ->
  (forall t : string, (t = "light" \/ t = "dark") ->
     App.data_theme (snd w) = Some t ->
     App.data_theme (snd (Controller.clicks 2 w)) = Some t /\
     fst (Controller.clicks 2 w) !! "theme" = Some t) /\
  (forall t : string, App.or_light (App.data_theme (snd w)) = t -> t <> "dark" ->
     App.data_theme (snd (Controller.clicks 1 w)) = Some "dark" /\
     App.data_theme (snd (Controller.clicks 2 w)) = Some "light").
Proof.
  destruct w as [ls dom]. cbn [snd]. intros Ht.
  cbn [Controller.clicks]. unfold App.themeToggle_click. rewrite Ht.
  cbn [fst snd App.data_theme App.themeToggle]. split.
  - intros t [-> | ->] Hd; rewrite Hd; cbn; (split; [reflexivity|]);
      unfold setItem; apply lookup_insert_eq.
  - intros t Hd Hne. rewrite Hd.
    destruct (String.eqb_spec t "dark") as [E|_]; [contradiction|].
    split; reflexivity.
Qed.

(** ** The demo API across calls and reloads *)

Lemma filter_posts_Some (postId : JSValue) (l l' : list JSValue) :
  DemoAPI.filter_posts postId l = Some l' ->
  l' = List.filter (fun p => negb (strict_eq (DemoAPI.post_id p) postId)) l.
Proof.
  revert l'. induction l as [|p l IH]; intros l' E; cbn [DemoAPI.filter_posts] in E.
  - now inversion E.
  - destruct (get_prop p "id") as [i|] eqn:Ei; [|discriminate].
    destruct (DemoAPI.filter_posts postId l) as [rest|]; [|discriminate].
    inversion E; subst l'. specialize (IH rest eq_refl). subst rest.
    cbn [List.filter]. unfold DemoAPI.post_id. rewrite Ei. cbn.
    destruct (strict_eq i postId); reflexivity.
Qed.

Lemma filter_posts_again (postId : JSValue) (l l' : list JSValue) :
  DemoAPI.filter_posts postId l = Some l' ->
  DemoAPI.filter_posts postId l' = Some l'.
Proof.
  revert l'. induction l as [|p l IH]; intros l' E; cbn [DemoAPI.filter_posts] in E.
  - now inversion E.
  - destruct (get_prop p "id") as [i|] eqn:Ei; [|discriminate].
    destruct (DemoAPI.filter_posts postId l) as [rest|]; [|discriminate].
    specialize (IH rest eq_refl). inversion E; subst l'.
    destruct (strict_eq i postId) eqn:Es; [exact IH|].
    cbn [DemoAPI.filter_posts]. now rewrite Ei, IH, Es.
Qed.

Lemma filter_keeps_all {A : Type} (f : A -> bool) (l : list A) :
  Forall (fun x => f x = true) l -> List.filter f l = l.
Proof.
  induction 1 as [|x l Hx Hl IH]; [reflexivity|].
  cbn [List.filter]. now rewrite Hx, IH.
Qed.

Lemma call_logged (H : JSONPlatform) (c : DemoAPI.Call) (w : DemoAPI.instance * Storage) :
  DemoAPI.isLoggedIn (fst (fst (DemoAPI.call c w))) =
  DemoSession.logged_after [c] (DemoAPI.isLoggedIn (fst w)).
Proof.
  destruct w as [this ls]. destruct c; cbn [DemoAPI.call DemoSession.logged_after fst].
  - unfold DemoAPI.login.
    destruct (strict_eq username (JStr "admin") && strict_eq password (JStr "admin123"));
      reflexivity.
  - reflexivity.
  - reflexivity.
  - unfold DemoAPI.createPost.
    destruct (negb (DemoAPI.isLoggedIn this)); [reflexivity|].
    destruct (DemoAPI.posts this); reflexivity.
  - unfold DemoAPI.deletePost.
    destruct (negb (DemoAPI.isLoggedIn this)); [reflexivity|].
    destruct (DemoAPI.posts this); try reflexivity.
    destruct (DemoAPI.filter_posts postId elems); reflexivity.
Qed.

(** X5. Over any sequence of calls on the demo API, the login flag
    moves only at a login with the literal credentials (to true) and at
    a logout (to false): a failed login does not log out, and
    [getPosts], [createPost] and [deletePost] leave it alone. *)
Theorem login_flag_follows_calls `{JSONPlatform}
    (cs : list DemoAPI.Call) (w : DemoAPI.instance * Storage) :
  DemoAPI.isLoggedIn (fst (DemoAPI.run cs w)) =
  DemoSession.logged_after cs (DemoAPI.isLoggedIn (fst w)).
Proof.
  revert w. induction cs as [|c cs IH]; intros w; [reflexivity|].
  cbn [DemoAPI.run]. rewrite IH, call_logged.
  destruct c; reflexivity.
Qed.

Lemma call_settled `{JSONPlatform} (c : DemoAPI.Call) (w : DemoAPI.instance * Storage) :
  DemoSession.settled w -> DemoSession.settled (fst (DemoAPI.call c w)).
Proof.
  intros (Hsafe & Htr & Hsync & Hflag).
  split; [|split; [|split; [now apply call_in_sync|]]];
    destruct w as [this ls]; cbn [fst snd] in *; destruct c; cbn [DemoAPI.call].
  - unfold DemoAPI.login. destruct (strict_eq username (JStr "admin") && strict_eq password (JStr "admin123")); exact Hsafe.
  - exact Hsafe.
  - exact Hsafe.
  - unfold DemoAPI.createPost. destruct (negb (DemoAPI.isLoggedIn this)); [exact Hsafe|].
    destruct (DemoAPI.posts this) eqn:Ep; try (cbn [fst snd]; rewrite ?Ep; exact Hsafe).
    cbn [fst DemoAPI.posts]. exact (conj (newPost_safe _ _ _ _) Hsafe).
  - unfold DemoAPI.deletePost. destruct (negb (DemoAPI.isLoggedIn this)); [exact Hsafe|].
    destruct (DemoAPI.posts this) eqn:Ep; try (cbn [fst]; rewrite Ep; exact Hsafe).
    destruct (DemoAPI.filter_posts postId elems) as [l'|] eqn:Ef;
      [|cbn [fst]; rewrite Ep; exact Hsafe].
    cbn [fst DemoAPI.posts]. rewrite (filter_posts_Some _ _ _ Ef).
    now apply safe_filter.
  - unfold DemoAPI.login. destruct (strict_eq username (JStr "admin") && strict_eq password (JStr "admin123")); exact Htr.
  - exact Htr.
  - exact Htr.
  - unfold DemoAPI.createPost. destruct (negb (DemoAPI.isLoggedIn this)); [exact Htr|].
    destruct (DemoAPI.posts this) eqn:Ep; try (cbn [fst]; rewrite Ep; exact Htr).
    reflexivity.
  - unfold DemoAPI.deletePost. destruct (negb (DemoAPI.isLoggedIn this)); [exact Htr|].
    destruct (DemoAPI.posts this) eqn:Ep; try (cbn [fst]; rewrite Ep; exact Htr).
    destruct (DemoAPI.filter_posts postId elems); [reflexivity|].
    cbn [fst]. rewrite Ep. exact Htr.
  - unfold DemoAPI.login. destruct (strict_eq username (JStr "admin") && strict_eq password (JStr "admin123")); [|exact Hflag].
    cbn [fst snd DemoAPI.isLoggedIn]. unfold getItem, setItem.
    rewrite lookup_insert_ne by discriminate. rewrite lookup_insert_eq. reflexivity.
  - unfold DemoAPI.logout. cbn [fst snd DemoAPI.isLoggedIn]. unfold getItem, removeItem.
    rewrite lookup_delete_ne by discriminate. rewrite lookup_delete_eq. reflexivity.
  - exact Hflag.
  - unfold DemoAPI.createPost. destruct (negb (DemoAPI.isLoggedIn this)); [exact Hflag|].
    destruct (DemoAPI.posts this) eqn:Ep; try (cbn [fst snd]; rewrite ?Ep; exact Hflag).
    cbn [fst snd DemoAPI.isLoggedIn]. unfold DemoAPI.savePostsToStorage, getItem, setItem.
    rewrite lookup_insert_ne by discriminate. exact Hflag.
  - unfold DemoAPI.deletePost. destruct (negb (DemoAPI.isLoggedIn this)); [exact Hflag|].
    destruct (DemoAPI.posts this) eqn:Ep; try (cbn [fst snd]; rewrite ?Ep; exact Hflag).
    destruct (DemoAPI.filter_posts postId elems); [|cbn [fst snd]; rewrite ?Ep; exact Hflag].
    cbn [fst snd DemoAPI.isLoggedIn]. unfold DemoAPI.savePostsToStorage, getItem, setItem.
    rewrite lookup_insert_ne by discriminate. exact Hflag.
Qed.

Lemma run_settled `{JSONPlatform} (cs : list DemoAPI.Call) :
  forall w : DemoAPI.instance * Storage,
    DemoSession.settled w -> DemoSession.settled (DemoAPI.run cs w).
Proof.
  induction cs as [|c cs IH]; intros w Hw; cbn [DemoAPI.run]; [exact Hw|].
  apply IH. now apply call_settled.
Qed.

(** What the constructor leaves is settled as soon as the posts it
    parsed survive serialisation. *)
Lemma new_settled `{JSONPlatform} (ls : Storage) (w : DemoAPI.instance * Storage) :
  DemoAPI.new ls = Some w -> JSON_safe (DemoAPI.posts (fst w)) -> DemoSession.settled w.
Proof.
  unfold DemoAPI.new. intros Hnew Hsafe.
  destruct (JSON_parse (item_text (getItem "demo_posts" ls))) as [v|]; [|discriminate].
  inversion Hnew; subst w; clear Hnew. cbn [fst snd DemoAPI.posts] in *.
  split; [exact Hsafe|]. split; [|split].
  - destruct (truthy v) eqn:Ev; [exact Ev | reflexivity].
  - unfold DemoAPI.in_sync, DemoAPI.savePostsToStorage, setItem. cbn [fst snd DemoAPI.posts].
    apply lookup_insert_eq.
  - cbn [fst snd DemoAPI.isLoggedIn].
    unfold DemoAPI.savePostsToStorage, setItem, getItem.
    now rewrite lookup_insert_ne by discriminate.
Qed.

(** X4. A reload reproduces the demo API: from a settled state (posts
    that survive serialisation, stored as their serialisation, login
    flag as stored) and after any sequence of calls, a [DemoAPI]
    constructed from the storage has the same login flag and the same
    posts, and its constructor leaves the storage as it found it; so an
    emptied post list stays empty instead of falling back to the mock
    posts. *)
Theorem reload_reproduces_state `{JSONPlatform}
    (cs : list DemoAPI.Call) (w : DemoAPI.instance * Storage) :
  JSON_roundtrip ->
  DemoSession.settled w ->
  DemoAPI.new (snd (DemoAPI.run cs w)) = Some (DemoAPI.run cs w).
Proof.
  intros Hrt Hw. apply (run_settled cs) in Hw.
  destruct (DemoAPI.run cs w) as [this ls]. destruct Hw as (Hsafe & Htr & Hsync & Hflag).
  unfold DemoAPI.in_sync in Hsync. cbn [fst snd] in *.
  unfold DemoAPI.new.
  replace (getItem "demo_posts" ls) with (JStr (JSON_stringify (DemoAPI.posts this)))
    by (unfold getItem; now rewrite Hsync).
  cbn [item_text]. rewrite (Hrt _ Hsafe), Htr, <- Hflag.
  unfold DemoAPI.savePostsToStorage, setItem. cbn [DemoAPI.posts].
  rewrite (insert_id ls _ _ Hsync). destruct this; reflexivity.
Qed.

Lemma newPost_readable (now : Z) (title content : string) (tags : list string) :
  DemoAPI.readable (DemoAPI.newPost now title content tags).
Proof. split; discriminate. Qed.

Lemma filter_drops_new (now : Z) (title content : string) (tags : list string)
    (l : list JSValue) :
  List.filter (fun p => negb (strict_eq (DemoAPI.post_id p) (JNum now)))
    (DemoAPI.newPost now title content tags :: l)
  = List.filter (fun p => negb (strict_eq (DemoAPI.post_id p) (JNum now))) l.
Proof.
  cbn [List.filter].
  replace (strict_eq (DemoAPI.post_id (DemoAPI.newPost now title content tags)) (JNum now))
    with true; [reflexivity|].
  symmetry. apply Z.eqb_refl.
Qed.

(** X6. Creating a post and deleting it by its [id] brings the posts
    back: in a logged-in state whose posts are a list of records none of
    which has the clock reading [now] as its [id], [createPost] at [now]
    followed by [deletePost(now)] leaves the list as it was, in memory
    and in storage; and when two posts were created at the same clock
    reading, the one [deletePost] removes both. *)
Theorem create_then_delete_restores `{JSONPlatform}
    (now : Z) (title content title2 content2 : string) (tags tags2 : option (list string))
    (this : DemoAPI.instance) (ls : Storage) (l : list JSValue) :
  DemoAPI.isLoggedIn this = true ->
  DemoAPI.posts this = JArr l ->
  Forall DemoAPI.readable l ->
  Forall (fun p => strict_eq (DemoAPI.post_id p) (JNum now) = false) l ->
  let created := fst (DemoAPI.createPost now title content tags (this, ls)) in
  let twice := fst (DemoAPI.createPost now title2 content2 tags2 created) in
  (DemoAPI.posts (fst (fst (DemoAPI.deletePost (JNum now) created))) = JArr l /\
   snd (fst (DemoAPI.deletePost (JNum now) created)) !! "demo_posts"
     = Some (JSON_stringify (JArr l))) /\
  (exists p1 p2, DemoAPI.posts (fst twice) = JArr (p2 :: p1 :: l)) /\
  DemoAPI.posts (fst (fst (DemoAPI.deletePost (JNum now) twice))) = JArr l.
Proof.
  intros Hlog Hposts Hread Hfresh created twice.
  assert (Hkeep : List.filter (fun p => negb (strict_eq (DemoAPI.post_id p) (JNum now))) l = l).
  { apply filter_keeps_all. eapply Forall_impl; [exact Hfresh|].
    intros p Hp. cbn beta. now rewrite Hp. }
  subst twice created. unfold DemoAPI.createPost. rewrite Hlog, Hposts.
  cbn [negb fst snd DemoAPI.isLoggedIn DemoAPI.posts].
  unfold DemoAPI.deletePost. cbn [negb fst snd DemoAPI.isLoggedIn DemoAPI.posts].
  rewrite !filter_posts_readable
    by (repeat (constructor; [apply newPost_readable|]); exact Hread).
  rewrite !filter_drops_new, Hkeep.
  cbn [fst snd DemoAPI.posts].
  split; [split; [reflexivity|]|split; [do 2 eexists; reflexivity | reflexivity]].
  unfold DemoAPI.savePostsToStorage, setItem. cbn [DemoAPI.posts]. apply lookup_insert_eq.
Qed.

(** X7. [deletePost] is idempotent: deleting by the same identifier a
    second time changes neither the object nor the storage, whatever the
    state (logged in or not, posts a list or not, callback throwing or
    not). *)
Theorem deletePost_idempotent `{JSONPlatform}
    (postId : JSValue) (w : DemoAPI.instance * Storage) :
  fst (DemoAPI.deletePost postId (fst (DemoAPI.deletePost postId w)))
  = fst (DemoAPI.deletePost postId w).
Proof.
  destruct w as [this ls]. unfold DemoAPI.deletePost at 2.
  destruct (negb (DemoAPI.isLoggedIn this)) eqn:Hlog.
  { cbn [fst]. unfold DemoAPI.deletePost. now rewrite Hlog. }
  destruct (DemoAPI.posts this) eqn:Ep;
    try (cbn [fst]; unfold DemoAPI.deletePost; now rewrite Hlog, Ep).
  destruct (DemoAPI.filter_posts postId elems) as [l'|] eqn:Ef.
  - cbn [fst]. unfold DemoAPI.deletePost.
    cbn [DemoAPI.isLoggedIn DemoAPI.posts]. rewrite Hlog, (filter_posts_again _ _ _ Ef).
    cbn [fst]. unfold DemoAPI.savePostsToStorage, setItem. cbn [DemoAPI.posts].
    rewrite insert_insert_eq, Ep, Ef. reflexivity.
  - cbn [fst]. unfold DemoAPI.deletePost. now rewrite Hlog, Ep, Ef.
Qed.

Lemma mockUser_safe : JSON_safe DEMO_MODE.mockUser.
Proof.
  vm_compute. repeat split; apply (bool_decide_unpack _); vm_compute; reflexivity.
Qed.

Lemma call_user_stored `{JSONPlatform} (c : DemoAPI.Call) (w : DemoAPI.instance * Storage) :
  DemoSession.user_stored w -> DemoSession.user_stored (fst (DemoAPI.call c w)).
Proof.
  destruct w as [this ls]. unfold DemoSession.user_stored. cbn [fst snd]. intros Hw.
  destruct c; cbn [DemoAPI.call].
  - unfold DemoAPI.login.
    destruct (strict_eq username (JStr "admin") && strict_eq password (JStr "admin123"));
      [|exact Hw].
    cbn [fst snd]. intros _. unfold setItem. apply lookup_insert_eq.
  - cbn [fst snd DemoAPI.logout DemoAPI.isLoggedIn]. discriminate.
  - exact Hw.
  - unfold DemoAPI.createPost. destruct (negb (DemoAPI.isLoggedIn this)); [exact Hw|].
    destruct (DemoAPI.posts this); try exact Hw.
    cbn [fst snd DemoAPI.isLoggedIn]. intros Hl.
    unfold DemoAPI.savePostsToStorage, setItem.
    rewrite lookup_insert_ne by discriminate. exact (Hw Hl).
  - unfold DemoAPI.deletePost. destruct (negb (DemoAPI.isLoggedIn this)); [exact Hw|].
    destruct (DemoAPI.posts this); try exact Hw.
    destruct (DemoAPI.filter_posts postId elems); [|exact Hw].
    cbn [fst snd DemoAPI.isLoggedIn]. intros Hl.
    unfold DemoAPI.savePostsToStorage, setItem.
    rewrite lookup_insert_ne by discriminate. exact (Hw Hl).
Qed.

(** X8. [getCurrentUser] answers the mock user exactly while logged in:
    from a state that is logged out, or logged in with the mock user
    stored, and after any sequence of calls, it returns the mock user
    when the login flag is set and [null] when it is not, on a platform
    that reads back what it wrote. *)
Theorem getCurrentUser_follows_login `{JSONPlatform}
    (cs : list DemoAPI.Call) (w : DemoAPI.instance * Storage) :
  JSON_roundtrip ->
  DemoSession.user_stored w ->
  DemoSession.getCurrentUser (DemoAPI.run cs w) =
    Some (if DemoSession.isAuthenticated (fst (DemoAPI.run cs w))
          then DEMO_MODE.mockUser else JNull).
Proof.
  intros Hrt Hw.
  assert (Hrun : DemoSession.user_stored (DemoAPI.run cs w)).
  { revert w Hw. induction cs as [|c cs IH]; intros w Hw; cbn [DemoAPI.run]; [exact Hw|].
    apply IH. now apply call_user_stored. }
  unfold DemoSession.getCurrentUser, DemoSession.isAuthenticated, DemoSession.user_stored in *.
  destruct (DemoAPI.isLoggedIn (fst (DemoAPI.run cs w))); [|reflexivity].
  unfold getItem. rewrite (Hrun eq_refl). cbn [item_text].
  apply Hrt, mockUser_safe.
Qed.

(** ** The excerpt *)

Lemma substring0_length (m : nat) (s : string) :
  String.length (String.substring 0 m s) = Nat.min m (String.length s).
Proof.
  revert s. induction m as [|m IH]; intros [|c s]; cbn; auto.
Qed.

Lemma substring0_prefix (m : nat) (s : string) :
  String.prefix (String.substring 0 m s) s = true.
Proof.
  revert s. induction m as [|m IH]; intros [|c s]; cbn; auto.
  destruct (ascii_dec c c); [apply IH | contradiction].
Qed.

Lemma substring0_all (m : nat) (s : string) :
  (String.length s <= m)%nat -> String.substring 0 m s = s.
Proof.
  revert s. induction m as [|m IH]; intros [|c s]; cbn; auto; intros Hl; [lia|].
  f_equal. apply IH. lia.
Qed.

(** X9. The excerpt of a created post is a prefix of the content, of
    its first 100 characters or of all of it when it is shorter,
    followed by three dots; so it is never longer than 103 characters
    and a content of at most 100 characters appears in full. *)
Theorem excerpt_is_bounded_prefix (now : Z) (title content : string) (tags : list string) :
  exists head : string,
    get_prop (DemoAPI.newPost now title content tags) "excerpt"
      = Some (JStr (head +:+ "...")) /\
    String.prefix head content = true /\
    String.length head = Nat.min 100 (String.length content) /\
    (String.length (head +:+ "...") <= 103)%nat /\
    ((String.length content <= 100)%nat -> head = content).
Proof.
  exists (String.substring 0 100 content).
  split; [reflexivity|]. split; [apply substring0_prefix|].
  split; [apply substring0_length|]. split.
  - rewrite length_app_s, substring0_length. cbn [String.length]. lia.
  - apply substring0_all.
Qed.

(** ** The page controller against the basic server *)

Lemma posts_payload_safe (now : Z) : JSON_safe (Server.posts_payload now).
Proof.
  unfold Server.posts_payload. cbn -[Date.toISOString].
  repeat split; apply (bool_decide_unpack _); vm_compute; reflexivity.
Qed.

Lemma server_values_safe :
  JSON_safe Server.login_success /\ JSON_safe Server.login_failure /\
  JSON_safe Server.invalid_json /\ JSON_safe Server.descriptor.
Proof.
  vm_compute. repeat split; apply (bool_decide_unpack _); vm_compute; reflexivity.
Qed.

Lemma credentials_safe (username password : string) :
  JSON_safe (JObj [("username", JStr username); ("password", JStr password)]).
Proof.
  cbn. repeat split. apply (bool_decide_unpack _). vm_compute. reflexivity.
Qed.

(** X11. What the server sends is what the page holds: on a platform
    that reads back what it wrote, when the request of [loadPosts]
    reaches the basic server, [loadPosts] leaves in [posts] the list of
    the two records of the reply, whatever the host name of the page and
    whether or not the grid element exists, and leaves [currentUser]
    alone. *)
Theorem page_holds_what_server_sends `{JSONPlatform}
    (now : Z) (hostname : string) (postsGrid : bool) (st : Controller.State) :
  JSON_roundtrip ->
  exists (req : Server.Request) (p q : JSValue),
    Controller.deliver (App.loadPosts hostname) EmptyString = Some req /\
    get_prop (Server.posts_payload now) "posts" = Some (JArr [p; q]) /\
    Controller.loadPosts_done postsGrid
      (Some (Controller.reply_of (Server.requestHandler now req))) st
    = {| Controller.currentUser := Controller.currentUser st;
         Controller.posts := JArr [p; q] |}.
Proof.
  intros Hrt. do 3 eexists. split; [reflexivity|]. split; [reflexivity|].
  unfold Controller.loadPosts_done, Controller.reply_of.
  cbn [Controller.body Server.res_body].
  change (Server.requestHandler now _) with (Server.json_response 200 (Server.posts_payload now)).
  cbn [Server.json_response Server.res_body].
  rewrite (Hrt _ (posts_payload_safe now)).
  destruct postsGrid; reflexivity.
Qed.

(** X12. A login from the page against the basic server succeeds exactly
    on the literal credentials: on a platform that reads back what it
    wrote, [login(username, password)] returns true, sets [currentUser]
    to the user of the reply and stores the token
    ['fake-jwt-token-12345'] under ['authToken'] when the credentials
    are admin and admin123; for every other pair of strings it returns
    false and leaves the state and the storage as they were. *)
Theorem page_login_against_server `{JSONPlatform}
    (now : Z) (hostname username password : string)
    (st : Controller.State) (ls : Storage) :
  JSON_roundtrip ->
  exists req : Server.Request,
    Controller.deliver (App.login hostname) (Controller.login_body username password)
      = Some req /\
    let out := Controller.login_done
                 (Some (Controller.reply_of (Server.requestHandler now req))) (st, ls) in
    (username = "admin" /\ password = "admin123" ->
     out = ({| Controller.currentUser :=
                 JObj [("id", JStr "1"); ("username", JStr "admin");
                       ("email", JStr "admin@blog.com"); ("role", JStr "admin")];
               Controller.posts := Controller.posts st |},
            setItem "authToken" "fake-jwt-token-12345" ls, true)) /\
    (~ (username = "admin" /\ password = "admin123") -> out = (st, ls, false)).
Proof.
  intros Hrt. eexists. split; [reflexivity|]. cbv zeta.
  destruct server_values_safe as (Hs1 & Hs2 & _ & _).
  unfold Controller.login_done, Controller.reply_of, Controller.login_body.
  cbn [Controller.body].
  unfold Server.requestHandler, Server.try_login.
  cbn [Server.req_method Server.req_url Server.req_body Controller.path_of].
  change (String.eqb "POST" "OPTIONS") with false.
  change (String.eqb "POST" "POST") with true.
  change (String.eqb (Controller.path_of "http://127.0.0.1:9090/api/auth/login")
            "/api/auth/login") with true.
  cbv iota. cbn [andb].
  rewrite (Hrt _ (credentials_safe username password)).
  unfold Server.credentials_match. cbn [get_prop assoc default from_option id String.eqb
    Ascii.eqb Bool.eqb strict_eq].
  destruct (String.eqb_spec username "admin") as [Eu|Eu];
    [destruct (String.eqb_spec password "admin123") as [Epw|Epw]|];
    cbn [Server.json_response Server.res_body].
  - rewrite (Hrt _ Hs1). split; [intros _; reflexivity | intros Hn; exfalso; auto].
  - rewrite (Hrt _ Hs2). split; [intros [_ E]; contradiction | intros _; reflexivity].
  - rewrite (Hrt _ Hs2). split; [intros [E _]; contradiction | intros _; reflexivity].
Qed.

(** X13. A session does not survive a reload against the basic server:
    with a non-empty token stored, [initializeApp] verifies it, and when
    that request reaches the basic server the reply is the service
    descriptor, which has no [success], so the token is removed from the
    storage and [currentUser] stays as it was. *)
Theorem stored_token_is_dropped_on_reload `{JSONPlatform}
    (now : Z) (hostname token : string) (st : Controller.State) (ls : Storage) :
  JSON_roundtrip ->
  ls !! "authToken" = Some token ->
  token <> EmptyString ->
  Controller.initializeApp hostname ls = App.verifyAuthToken hostname /\
  exists req : Server.Request,
    Controller.deliver (App.verifyAuthToken hostname) EmptyString = Some req /\
    Controller.verifyAuthToken_done
      (Some (Controller.reply_of (Server.requestHandler now req))) (st, ls)
    = (st, removeItem "authToken" ls) /\
    snd (Controller.verifyAuthToken_done
           (Some (Controller.reply_of (Server.requestHandler now req))) (st, ls))
      !! "authToken" = None.
Proof.
  intros Hrt Htok Hne. split.
  - unfold Controller.initializeApp, getItem. rewrite Htok. cbn [truthy].
    destruct (String.eqb_spec token EmptyString); [contradiction | reflexivity].
  - eexists. split; [reflexivity|].
    destruct server_values_safe as (_ & _ & _ & Hd).
    assert (E : Controller.verifyAuthToken_done
                  (Some (Controller.reply_of
                     (Server.requestHandler now
                        {| Server.req_method := "GET";
                           Server.req_url := Controller.path_of "/api/auth/verify";
                           Server.req_body := EmptyString |}))) (st, ls)
                = (st, removeItem "authToken" ls)).
    { unfold Controller.verifyAuthToken_done, Controller.reply_of.
      change (Server.requestHandler now _) with (Server.json_response 200 Server.descriptor).
      cbn [Server.json_response Server.res_body Server.res_status Controller.body
           Controller.ok Controller.status].
      change ((200 <=? 200) && (200 <=? 299)) with true. cbn [negb].
      rewrite (Hrt _ Hd). reflexivity. }
    cbn [App.verifyAuthToken Controller.deliver]. rewrite E.
    split; [reflexivity|]. cbn [snd]. unfold removeItem. apply lookup_delete_eq.
Qed.

(** X17. No mutation succeeds against the basic server: when the
    request of [createPost], of [updatePost] or of [deletePost] reaches
    it, whatever the body and the post identifier, the reply is the
    service descriptor and the test the three functions make on it
    ([data.success]) is false. *)
Theorem mutations_fail_against_server `{JSONPlatform}
    (now : Z) (hostname postId body : string) :
  JSON_roundtrip ->
  forall i : App.Issued,
    i = App.createPost hostname \/ i = App.updatePost hostname postId \/
    i = App.deletePost hostname postId ->
    exists req : Server.Request,
      Controller.deliver i body = Some req /\
      Server.res_body (Server.requestHandler now req) = JSON_stringify Server.descriptor /\
      Controller.mutation_succeeded
        (Some (Controller.reply_of (Server.requestHandler now req))) = false.
Proof.
  intros Hrt i Hi. destruct server_values_safe as (_ & _ & _ & Hd).
  assert (Hdone : forall req, Server.requestHandler now req
                              = Server.json_response 200 Server.descriptor ->
            Server.res_body (Server.requestHandler now req) = JSON_stringify Server.descriptor /\
            Controller.mutation_succeeded
              (Some (Controller.reply_of (Server.requestHandler now req))) = false).
  { intros req ->. split; [reflexivity|].
    unfold Controller.mutation_succeeded, Controller.reply_of.
    cbn [Server.json_response Server.res_body Controller.body].
    rewrite (Hrt _ Hd). reflexivity. }
  destruct Hi as [-> | [-> | ->]]; eexists; (split; [reflexivity|]); apply Hdone;
    reflexivity.
Qed.

(** ** Looking a post up by [_id] *)

Lemma find_without__id (postId : JSValue) (l : list JSValue) :
  postId <> JUndefined ->
  Forall (fun p => exists ps, p = JObj ps /\ assoc "_id" ps = None) l ->
  Controller.find_by__id postId l = Some JUndefined.
Proof.
  intros Hid. induction 1 as [|p l (ps & -> & Hps) _ IH]; [reflexivity|].
  cbn [Controller.find_by__id get_prop]. rewrite Hps. cbn.
  destruct postId; try exact IH. contradiction.
Qed.

(** X14. [viewPost] shows nothing for the posts this repository
    produces: on a list of records none of which has an [_id] property,
    and for every identifier other than [undefined], it returns without
    an alert; the records the server sends, the mock posts and the
    records [createPost] builds are such records (they carry [id], not
    [_id]). *)
Theorem viewPost_finds_no_post (postId : JSValue) (user : JSValue) (l : list JSValue) :
  (postId <> JUndefined ->
   Forall (fun p => exists ps, p = JObj ps /\ assoc "_id" ps = None) l ->
   Controller.viewPost postId
     {| Controller.currentUser := user; Controller.posts := JArr l |} = Some None) /\
  (forall now : Z, exists p q,
     get_prop (Server.posts_payload now) "posts" = Some (JArr [p; q]) /\
     Forall (fun p => exists ps, p = JObj ps /\ assoc "_id" ps = None) [p; q]) /\
  Forall (fun p => exists ps, p = JObj ps /\ assoc "_id" ps = None)
    DEMO_MODE.mockPosts_elements /\
  (forall now title content tags, exists ps,
     DemoAPI.newPost now title content tags = JObj ps /\ assoc "_id" ps = None).
Proof.
  split; [|split; [|split]].
  - intros Hid Hl. unfold Controller.viewPost. cbn [Controller.posts].
    now rewrite (find_without__id postId l Hid Hl).
  - intros now. do 2 eexists. split; [reflexivity|].
    repeat constructor; eexists; split; reflexivity.
  - repeat constructor; eexists; split; reflexivity.
  - intros. eexists. split; reflexivity.
Qed.

(** ** Tags *)

Lemma includes_comma_cons (c : ascii) (r : string) :
  includes (String c r) "," = Ascii.eqb c "," || includes r ",".
Proof.
  cbn [includes String.prefix]. destruct (ascii_dec "," c) as [<-|Hne].
  - now destruct r.
  - destruct (Ascii.eqb_spec c ","); [congruence | reflexivity].
Qed.

Lemma split_comma_cons (c : ascii) (r : string) :
  Ascii.eqb c "," = false ->
  exists x xs, Controller.split_comma r = x :: xs /\
               Controller.split_comma (String c r) = String c x :: xs.
Proof.
  intros Hc. cbn [Controller.split_comma]. rewrite Hc.
  assert (Hne : exists x xs, Controller.split_comma r = x :: xs).
  { destruct r as [|c' r']; cbn [Controller.split_comma]; [eauto|].
    destruct (Ascii.eqb c' ","); [eauto|].
    destruct (Controller.split_comma r'); eauto. }
  destruct Hne as (x & xs & E). rewrite E. eauto.
Qed.

Lemma split_comma_app (t rest : string) :
  includes t "," = false ->
  Controller.split_comma (t +:+ String "," rest) = t :: Controller.split_comma rest.
Proof.
  induction t as [|c t IH]; intros Hc.
  - reflexivity.
  - rewrite includes_comma_cons in Hc. apply orb_false_iff in Hc as [Hc Ht].
    rewrite app_cons_s.
    destruct (split_comma_cons c (t +:+ String "," rest) Hc) as (x & xs & E & ->).
    rewrite (IH Ht) in E. now inversion E.
Qed.

Lemma split_comma_whole (t : string) :
  includes t "," = false -> Controller.split_comma t = [t].
Proof.
  induction t as [|c t IH]; intros Hc; [reflexivity|].
  rewrite includes_comma_cons in Hc. apply orb_false_iff in Hc as [Hc Ht].
  destruct (split_comma_cons c t Hc) as (x & xs & E & ->).
  rewrite (IH Ht) in E. now inversion E.
Qed.

Lemma trimmed_join (ts : list string) :
  ts <> [] ->
  Forall Controller.clean_tag ts ->
  map Controller.trim (Controller.split_comma (Controller.join_tags ts)) = ts.
Proof.
  intros Hne Hts. induction Hts as [|t ts (Ht0 & Ht & Hc) Hts IH]; [contradiction|].
  unfold Controller.join_tags in *. destruct ts as [|t' ts].
  - cbn [String.concat]. rewrite (split_comma_whole t Hc). cbn [map]. now rewrite Ht.
  - change (String.concat ", " (t :: t' :: ts))
      with (t +:+ String "," (String " " (String.concat ", " (t' :: ts)))).
    rewrite (split_comma_app _ _ Hc). cbn [map]. rewrite Ht. f_equal.
    specialize (IH ltac:(discriminate)).
    destruct (split_comma_cons " " (String.concat ", " (t' :: ts)) eq_refl)
      as (x & xs & E & ->).
    rewrite E in IH. cbn [map] in IH |- *.
    change (Controller.trim (String " " x)) with (Controller.trim x).
    exact IH.
Qed.

(** X15. The tags survive the editor text: for tags that are non-empty,
    trimmed and free of commas, the text [editPost] builds for the tags
    input with [tags.join(', ')] parses back, as [createPost] and
    [updatePost] parse it, to the same list of tags; the empty list
    gives the empty text and back. *)
Theorem tags_survive_the_editor (tags : list string) :
  Forall Controller.clean_tag tags ->
  Controller.parse_tags (Controller.join_tags tags) = tags.
Proof.
  intros Hts. unfold Controller.parse_tags.
  destruct tags as [|t ts]; [reflexivity|].
  rewrite trimmed_join by (discriminate || exact Hts).
  apply filter_keeps_all. eapply Forall_impl; [exact Hts|].
  intros x (Hx & _). cbn beta.
  destruct (String.eqb_spec x EmptyString); [contradiction | reflexivity].
Qed.

Lemma split_comma_parts (s x : string) :
  In x (Controller.split_comma s) -> includes x "," = false.
Proof.
  revert x. induction s as [|c r IH]; intros x Hx.
  - destruct Hx as [<-|[]]. reflexivity.
  - cbn [Controller.split_comma] in Hx. destruct (Ascii.eqb c ",") eqn:Hc.
    + destruct Hx as [<-|Hx]; [reflexivity | now apply IH].
    + destruct (Controller.split_comma r) as [|y ys].
      * destruct Hx as [<-|[]]. rewrite includes_comma_cons, Hc. reflexivity.
      * destruct Hx as [<-|Hx].
        -- rewrite includes_comma_cons, Hc. apply IH. now left.
        -- apply IH. now right.
Qed.

Lemma trimStart_no_comma (s : string) :
  includes s "," = false -> includes (Controller.trimStart s) "," = false.
Proof.
  induction s as [|c r IH]; intros Hs; [exact Hs|].
  cbn [Controller.trimStart]. destruct (Controller.is_space c); [|exact Hs].
  rewrite includes_comma_cons in Hs. apply orb_false_iff in Hs as [_ Hr]. auto.
Qed.

Lemma trimEnd_no_comma (s : string) :
  includes s "," = false -> includes (Controller.trimEnd s) "," = false.
Proof.
  induction s as [|c r IH]; intros Hs; [exact Hs|].
  rewrite includes_comma_cons in Hs. apply orb_false_iff in Hs as [Hc Hr].
  specialize (IH Hr). cbn [Controller.trimEnd].
  destruct (Controller.trimEnd r) as [|d e].
  - destruct (Controller.is_space c); [reflexivity|].
    rewrite includes_comma_cons, Hc. reflexivity.
  - rewrite includes_comma_cons, Hc. exact IH.
Qed.

Lemma trimStart_head (s : string) :
  match Controller.trimStart s with
  | EmptyString => True
  | String c _ => Controller.is_space c = false
  end.
Proof.
  induction s as [|c r IH]; [exact I|].
  cbn [Controller.trimStart]. destruct (Controller.is_space c) eqn:Hc; [exact IH | exact Hc].
Qed.

Lemma trimEnd_head (s : string) :
  match s with
  | EmptyString => True
  | String c _ => Controller.is_space c = false
  end ->
  Controller.trimStart (Controller.trimEnd s) = Controller.trimEnd s.
Proof.
  destruct s as [|c r]; [reflexivity|]. intros Hc. cbn [Controller.trimEnd].
  destruct (Controller.trimEnd r); rewrite ?Hc; cbn [Controller.trimStart]; now rewrite Hc.
Qed.

Lemma trimEnd_idem (s : string) :
  Controller.trimEnd (Controller.trimEnd s) = Controller.trimEnd s.
Proof.
  induction s as [|c r IH]; [reflexivity|].
  cbn [Controller.trimEnd]. destruct (Controller.trimEnd r) as [|d e] eqn:E.
  - destruct (Controller.is_space c) eqn:Hc; [reflexivity|].
    cbn [Controller.trimEnd]. now rewrite Hc.
  - cbn [Controller.trimEnd] in IH |- *.
    destruct (Controller.trimEnd e) as [|d' e'] eqn:E'.
    + destruct (Controller.is_space d); [discriminate IH|].
      inversion IH; subst e. reflexivity.
    + inversion IH; subst e. reflexivity.
Qed.

Lemma trim_idem (s : string) : Controller.trim (Controller.trim s) = Controller.trim s.
Proof.
  unfold Controller.trim.
  rewrite (trimEnd_head _ (trimStart_head s)). apply trimEnd_idem.
Qed.

(** X16. Every tag [createPost] and [updatePost] send is non-empty,
    trimmed and free of commas, whatever the text of the tags input; so
    writing the parsed tags back into the input and parsing again gives
    the same tags. *)
Theorem parsed_tags_are_clean (tagsText : string) :
  Forall Controller.clean_tag (Controller.parse_tags tagsText) /\
  Controller.parse_tags (Controller.join_tags (Controller.parse_tags tagsText))
    = Controller.parse_tags tagsText.
Proof.
  assert (Hclean : Forall Controller.clean_tag (Controller.parse_tags tagsText)).
  { apply List.Forall_forall. intros t Ht. unfold Controller.parse_tags in Ht.
    apply List.filter_In in Ht as [Ht Hne]. apply List.in_map_iff in Ht as (x & <- & Hx).
    split; [|split].
    - intros E. rewrite E in Hne. discriminate Hne.
    - apply trim_idem.
    - unfold Controller.trim. apply trimEnd_no_comma, trimStart_no_comma.
      now apply (split_comma_parts tagsText). }
  split; [exact Hclean|].
  destruct (Controller.parse_tags tagsText) as [|t ts] eqn:E; [reflexivity|].
  unfold Controller.parse_tags at 1.
  rewrite trimmed_join by (discriminate || exact Hclean).
  apply filter_keeps_all. eapply Forall_impl; [exact Hclean|].
  intros x (Hx & _). cbn beta.
  destruct (String.eqb_spec x EmptyString); [contradiction | reflexivity].
Qed.

(** * The further properties at sample inputs *)

Lemma token_survives_reload_witness :
  APIClient.getToken
    (APIClient.new (snd (APIClient.setToken (Some "fake-jwt-token-12345")
                           (APIClient.new ∅, ∅))))
  = Some "fake-jwt-token-12345".
Proof.
  destruct (token_survives_reload (APIClient.new ∅, ∅)) as (Hset & _).
  apply (Hset "fake-jwt-token-12345"). discriminate.
Defined.

Lemma development_is_not_static_witness :
  Config.getEnvironment "127.0.0.1" = Config.development /\
  isStaticDeployment "127.0.0.1" = false.
Proof.
  split; [reflexivity|].
  destruct (development_is_not_static "127.0.0.1") as (Hdev & _).
  apply Hdev. reflexivity.
Defined.

Lemma clicks_keep_theme_coherent_witness :
  App.themeToggle Sample.page = true /\
  Controller.theme_coherent (Controller.clicks 3 (∅, Sample.page)).
Proof.
  split; [reflexivity|].
  apply (clicks_keep_theme_coherent 2 (∅, Sample.page)). reflexivity.
Defined.

Lemma two_clicks_restore_theme_witness :
  App.themeToggle (App.bindEvents Sample.dark_store Sample.page) = true /\
  App.data_theme
    (snd (Controller.clicks 2
            (Sample.dark_store, App.bindEvents Sample.dark_store Sample.page)))
  = Some "dark".
Proof.
  split; [reflexivity|].
  destruct (two_clicks_restore_theme
              (Sample.dark_store, App.bindEvents Sample.dark_store Sample.page) eq_refl)
    as (Hback & _).
  apply (Hback "dark"); [now right | reflexivity].
Defined.

Lemma first_visit_settled :
  DemoSession.settled (H := JSON_model) (Sample.guest, Sample.stored).
Proof.
  apply (new_settled ∅); [reflexivity | apply mockPosts_safe].
Qed.

Lemma reload_reproduces_state_witness :
  DemoAPI.new (H := JSON_model)
    (snd (DemoAPI.run (H := JSON_model) Sample.session (Sample.guest, Sample.stored)))
  = Some (DemoAPI.run (H := JSON_model) Sample.session (Sample.guest, Sample.stored)).
Proof.
  apply (@reload_reproduces_state JSON_model Sample.session (Sample.guest, Sample.stored)
           JSON_model_roundtrip first_visit_settled).
Defined.

Lemma mockPosts_ids_fresh :
  Forall (fun p => strict_eq (DemoAPI.post_id p) (JNum Sample.now) = false)
    DEMO_MODE.mockPosts_elements.
Proof. repeat (constructor; [reflexivity|]). constructor. Qed.

Lemma create_then_delete_restores_witness :
  DemoAPI.posts
    (fst (fst (DemoAPI.deletePost (H := JSON_model) (JNum Sample.now)
                 (fst (DemoAPI.createPost (H := JSON_model) Sample.now "Hello"
                         "First words" None (Sample.admin, Sample.stored))))))
  = DEMO_MODE.mockPosts.
Proof.
  destruct (@create_then_delete_restores JSON_model Sample.now "Hello" "First words"
              "Again" "Second words" None None Sample.admin Sample.stored
              DEMO_MODE.mockPosts_elements eq_refl eq_refl mockPosts_readable
              mockPosts_ids_fresh) as ((Hposts & _) & _).
  exact Hposts.
Defined.

Lemma getCurrentUser_follows_login_witness :
  DemoSession.getCurrentUser (H := JSON_model)
    (DemoAPI.run (H := JSON_model)
       [DemoAPI.CLogin Sample.now (JStr "admin") (JStr "admin123");
        DemoAPI.CDeletePost (JNum 1)]
       (Sample.guest, Sample.stored))
  = Some DEMO_MODE.mockUser.
Proof.
  assert (Hstart : DemoSession.user_stored (H := JSON_model) (Sample.guest, Sample.stored))
    by (intros E; discriminate E).
  exact (@getCurrentUser_follows_login JSON_model
           [DemoAPI.CLogin Sample.now (JStr "admin") (JStr "admin123");
            DemoAPI.CDeletePost (JNum 1)]
           (Sample.guest, Sample.stored) JSON_model_roundtrip Hstart).
Defined.

Lemma page_holds_what_server_sends_witness :
  exists p q : JSValue,
    Controller.posts
      (Controller.loadPosts_done (H := JSON_model) true
         (Some (Controller.reply_of
                  (Server.requestHandler (H := JSON_model) Sample.now
                     (Server.posts_request EmptyString))))
         Controller.initial)
    = JArr [p; q] /\
    get_prop p "id" = Some (JNum 1) /\ get_prop q "id" = Some (JNum 2).
Proof.
  destruct (@page_holds_what_server_sends JSON_model Sample.now "localhost" true
              Controller.initial JSON_model_roundtrip)
    as (req & p & q & Hreq & Hpq & Hdone).
  inversion Hreq; subst req. inversion Hpq; subst p q.
  do 2 eexists. split; [exact (f_equal Controller.posts Hdone)|]. split; reflexivity.
Defined.

Lemma page_login_against_server_witness :
  snd (Controller.login_done (H := JSON_model)
         (Some (Controller.reply_of
                  (Server.requestHandler (H := JSON_model) Sample.now
                     (Server.login_request
                        (Controller.login_body (H := JSON_model) "admin" "admin123")))))
         (Controller.initial, ∅))
  = true.
Proof.
  destruct (@page_login_against_server JSON_model Sample.now "localhost" "admin" "admin123"
              Controller.initial ∅ JSON_model_roundtrip) as (req & Hreq & Hyes & _).
  inversion Hreq; subst req. exact (f_equal snd (Hyes (conj eq_refl eq_refl))).
Defined.

Lemma stored_token_is_dropped_on_reload_witness :
  ({["authToken" := "fake-jwt-token-12345"]} : Storage) !! "authToken"
    = Some "fake-jwt-token-12345" /\
  Controller.initializeApp "localhost" {["authToken" := "fake-jwt-token-12345"]}
    = App.Fetch "GET" "/api/auth/verify" /\
  snd (Controller.verifyAuthToken_done (H := JSON_model)
         (Some (Controller.reply_of
                  (Server.requestHandler (H := JSON_model) Sample.now
                     {| Server.req_method := "GET";
                        Server.req_url := "/api/auth/verify";
                        Server.req_body := EmptyString |})))
         (Controller.initial, {["authToken" := "fake-jwt-token-12345"]}))
    !! "authToken" = None.
Proof.
  assert (Hstored : ({["authToken" := "fake-jwt-token-12345"]} : Storage) !! "authToken"
                    = Some "fake-jwt-token-12345") by reflexivity.
  split; [exact Hstored|].
  destruct (@stored_token_is_dropped_on_reload JSON_model Sample.now "localhost"
              "fake-jwt-token-12345" Controller.initial
              {["authToken" := "fake-jwt-token-12345"]} JSON_model_roundtrip Hstored
              ltac:(discriminate)) as (Hinit & req & Hreq & _ & Hgone).
  split; [exact Hinit|]. inversion Hreq; subst req. exact Hgone.
Defined.

Lemma mutations_fail_against_server_witness :
  exists body req,
    Controller.post_body (H := JSON_model) "Hello" "First words" "general" "intro, garden"
      = Some body /\
    Controller.deliver (App.createPost "localhost") body = Some req /\
    Controller.mutation_succeeded (H := JSON_model)
      (Some (Controller.reply_of (Server.requestHandler (H := JSON_model) Sample.now req)))
    = false.
Proof.
  eexists. 
  destruct (@mutations_fail_against_server JSON_model Sample.now "localhost" "7"
              (JSON.stringify
                 (JObj [("title", JStr "Hello"); ("content", JStr "First words");
                        ("category", JStr "general");
                        ("tags", JArr [JStr "intro"; JStr "garden"])]))
              JSON_model_roundtrip (App.createPost "localhost") (or_introl eq_refl))
    as (req & Hreq & _ & Hfail).
  exists req. split; [reflexivity|]. split; [exact Hreq | exact Hfail].
Defined.

Lemma viewPost_finds_no_post_witness :
  Controller.viewPost (JStr "undefined")
    {| Controller.currentUser := JNull; Controller.posts := DEMO_MODE.mockPosts |}
  = Some None.
Proof.
  destruct (viewPost_finds_no_post (JStr "undefined") JNull DEMO_MODE.mockPosts_elements)
    as (Hnone & _ & Hmock & _).
  apply Hnone; [discriminate | exact Hmock].
Defined.

Lemma sample_tags_clean : Forall Controller.clean_tag ["intro"; "garden notes"].
Proof.
  repeat (constructor; [split; [discriminate | split; reflexivity]|]). constructor.
Qed.

Lemma tags_survive_the_editor_witness :
  Controller.join_tags ["intro"; "garden notes"] = "intro, garden notes" /\
  Controller.parse_tags "intro, garden notes" = ["intro"; "garden notes"].
Proof.
  split; [reflexivity|].
  exact (tags_survive_the_editor ["intro"; "garden notes"] sample_tags_clean).
Defined.
